(** * localslackirc: a shallow embedding of the gateway and its properties

    The development follows the two source modules:
    - [slack.py]: class [Slack] (remote state, caches, history, events);
    - [irc.py]: class [Client] (the line-protocol session) and its driver.

    Python coroutines are embedded sequentially in a state-and-exception
    monad: a call runs to its end before the other task moves.
    Dictionaries are [gmap]s, sets are [gset]s (a loop over a set visits
    [elements] of it), [bytes] and [str] are both [string], timestamps
    (Python floats that the code only compares and subtracts) are
    integers, the clock is an argument [now] of the calls that read it.
    The remote service is a function that answers the [n]-th call; every
    call made is logged in the state, as is every sleep and every line
    written to the client.  The unbounded loops of the history backfill
    take fuel.  Left out: logging, the regular-expression text
    transformations of irc.py (taken as parameters), and the list of user
    names kept for them ([_usermapcache_keys]). *)

From Stdlib Require Import ZArith Lia Ascii String.
From stdpp Require Import base option list gmap sets strings pretty.

Local Open Scope string_scope.
Local Open Scope list_scope.
Local Open Scope Z_scope.

(** ** Exceptions and the monad *)

(** The Python exceptions the two modules can raise.  All of them derive
    from [Exception]. *)
Inductive exn :=
  | KeyError | IndexError | ValueError | UnboundLocalError | AssertionError
  | ResponseException | LoadError | TransportError | OSError
  | IrcDisconnectError.

Global Instance exn_eq_dec : EqDecision exn.
Proof. solve_decision. Defined.

(** Outcome of a call: a value, a raised exception, or [Timeout] when the
    fuel of one of the unbounded loops ran out (never caught by [except]). *)
Inductive Res (A : Type) :=
  | Ok (a : A)
  | Raise (e : exn)
  | Timeout.
Arguments Ok {A} a.
Arguments Raise {A} e.
Arguments Timeout {A}.

Definition M (S A : Type) : Type := S → Res A * S.

Global Instance M_ret {S} : MRet (M S) := λ A a s, (Ok a, s).
Global Instance M_bind {S} : MBind (M S) := λ A B f m s,
  match m s with
  | (Ok a, s') => f a s'
  | (Raise e, s') => (Raise e, s')
  | (Timeout, s') => (Timeout, s')
  end.

Definition raise {S A} (e : exn) : M S A := λ s, (Raise e, s).
Definition timeout {S A} : M S A := λ s, (Timeout, s).
Definition gets {S A} (f : S → A) : M S A := λ s, (Ok (f s), s).
Definition modify {S} (f : S → S) : M S unit := λ s, (Ok tt, f s).

(** [try: body except h]: [h e = Some k] when the clause catches [e]. *)
Definition try_except {S A} (body : M S A) (h : exn → option (M S A)) : M S A :=
  λ s, match body s with
       | (Raise e, s') => match h e with Some k => k s' | None => (Raise e, s') end
       | r => r
       end.

(** [except Exception:] and [except KeyError:] *)
Definition any_exception {S A} (k : M S A) : exn → option (M S A) := λ _, Some k.
Definition only {S A} (e0 : exn) (k : M S A) : exn → option (M S A) :=
  λ e, if decide (e = e0) then Some k else None.
(** [except Exception as e:], the handler uses [e] *)
Definition exception_as {S A} (k : exn → M S A) : exn → option (M S A) :=
  λ e, Some (k e).

(** [for x in l: body x] *)
Fixpoint for_each {S A} (l : list A) (body : A → M S unit) : M S unit :=
  match l with
  | [] => mret tt
  | x :: l' => body x ;; for_each l' body
  end.

(** Run an action of the inner state on a component of the outer state. *)
Definition lift {S T A} (proj : T → S) (upd : S → T → T) (m : M S A) : M T A :=
  λ t, let '(r, s') := m (proj t) in (r, upd s' t).

(** ** slack.py: data model *)

Record Channel := mkChannel {
  ch_id : string;
  name_normalized : string;
  purpose : string;
  topic : string;
  num_members : Z;
  is_member : bool;
  is_channel : bool;
  is_group : bool;
  is_mpim : bool;
  latest : option Z;      (* LatestMessage.ts *)
}.

Record Message := mkMessage {
  m_channel : string;
  m_user : string;
  m_text : string;
}.

Record NoChanMessage := mkNoChanMessage {
  nc_user : string;
  nc_text : string;
}.

Record Profile := mkProfile {
  p_real_name : string;
  email : option string;
  status_text : string;
  is_restricted : bool;
  is_ultra_restricted : bool;
}.

Record User := mkUser {
  u_id : string;
  u_name : string;
  profile : Profile;
  is_admin : bool;
  deleted : bool;
}.

Definition real_name (u : User) : string := p_real_name (profile u).

Record File := mkFile {
  f_id : string;
  url_private : string;
  f_size : Z;
  f_user : string;
  f_name : option string;
  f_title : option string;
  mimetype : option string;
  f_channels : list string;
  f_groups : list string;
  f_ims : list string;
}.

Record IM := mkIM {
  IM_id : string;
  IM_user : string;
}.

(** [HistoryMessage] and [HistoryBotMessage]: the two differ in who spoke. *)
Inductive HistKind :=
  | HUser (user : string)
  | HBot (bot_id : option string) (username : string).

Record HistMsg := mkHistMsg {
  h_kind : HistKind;
  h_text : string;
  h_ts : Z;
  h_files : list File;
  h_thread_ts : option Z;   (* [None] also stands for the empty string *)
}.

(** The typed events ([SlackEvent] in the source). *)
Inductive SlackEvent :=
  | TopicChange (topic channel user : string)
  | MessageDelete (channel : string) (previous_message : NoChanMessage)
  | MessageEdit (channel : string) (previous current : NoChanMessage)
  | Msg (m : Message)
  | ActionMessage (m : Message)
  | MessageBot (text username channel : string) (bot_id : option string)
  | FileShared (file_id user_id : string) (ts : Z)
  | Join (user channel : string)
  | Leave (user channel : string)
  | GroupJoined (channel : Channel).

(** A raw event of the push stream: a JSON object, with the keys the code
    reads. *)
Record RawEvent := mkRaw {
  r_type : option string;
  r_subtype : option string;
  r_ts : option Z;
  r_channel : option string;
  r_channel_obj : option Channel;
  r_user : option string;
  r_user_obj : option User;
  r_text : option string;
  r_username : option string;
  r_bot_id : option string;
  r_topic : option string;
  r_file_id : option string;
  r_user_id : option string;
  r_previous_message : option NoChanMessage;
  r_message : option NoChanMessage;
}.

Record LoginInfo := mkLoginInfo {
  team_name : string;
  team_domain : string;
  self_name : string;
}.

(** ** The remote transport ([SlackClient]) *)

Inductive Request :=
  | ReqLogin
  | ReqRtmConnect
  | ReqRtmRead
  | ReqReplies (channel : string) (ts : Z) (cursor : option string)
  | ReqHistory (channel : string) (oldest : Z) (cursor : option string)
  | ReqSetPresence (presence : string)
  | ReqSetTopic (channel new_topic : string)
  | ReqKick (channel user : string)
  | ReqJoin (channel : string)
  | ReqInvite (channel users : string)
  | ReqMembers (channel : string) (cursor : option string)
  | ReqList (types : string)
  | ReqUsersList
  | ReqUsersInfo (user : string)
  | ReqFilesInfo (file : string)
  | ReqFilesUpload (channels filename : string)
  | ReqChat (api channel text : string)
  | ReqImOpen (user : string).

Global Instance Request_eq_dec : EqDecision Request.
Proof. solve_decision. Defined.

(** What a response carries besides [ok]. *)
Inductive Body :=
  | BNone
  | BLogin (info : LoginInfo)
  | BEvents (events : list RawEvent)
  | BHistory (messages : list HistMsg) (has_more : bool) (next_cursor : option string)
  | BMembers (members : list string) (next_cursor : option string)
  | BChannels (channels : list Channel)
  | BIms (ims : list IM)
  | BUsers (members : list User)
  | BUser (user : User)
  | BFile (file : File)
  | BSent (ts : option Z)
  | BImOpened (channel_id : string).

Record Resp := mkResp {
  ok : bool;
  body : Body;
}.

(** The transport answers the [n]-th call; [None] is a raised exception. *)
Definition Remote : Type := nat → Request → option Resp.

Record SlackStatus := mkStatus {
  last_timestamp : Z;
}.

Record Slack := mkSlack {
  calls : list Request;                 (* every call made so far, oldest first *)
  slept : list Z;                       (* every [asyncio.sleep] delay so far *)
  _usercache : gmap string User;
  _usermapcache : gmap string User;
  _imcache : gmap string string;
  _channelscache : list Channel;
  _get_members_cache : gmap string (gset string);
  _get_members_cache_cursor : gmap string (option string);
  _internalevents : list SlackEvent;
  _sent_by_self : gset Z;
  login_info : option LoginInfo;
  _status : SlackStatus;
}.

Definition SM (A : Type) : Type := M Slack A.

(** Field updates of [Slack] (Python attribute assignment). *)
Definition set_calls (v : list Request) (s : Slack) : Slack :=
  mkSlack v (slept s) (_usercache s) (_usermapcache s) (_imcache s) (_channelscache s)
    (_get_members_cache s) (_get_members_cache_cursor s) (_internalevents s)
    (_sent_by_self s) (login_info s) (_status s).
Definition set_slept (v : list Z) (s : Slack) : Slack :=
  mkSlack (calls s) v (_usercache s) (_usermapcache s) (_imcache s) (_channelscache s)
    (_get_members_cache s) (_get_members_cache_cursor s) (_internalevents s)
    (_sent_by_self s) (login_info s) (_status s).
Definition set_usercache (v : gmap string User) (s : Slack) : Slack :=
  mkSlack (calls s) (slept s) v (_usermapcache s) (_imcache s) (_channelscache s)
    (_get_members_cache s) (_get_members_cache_cursor s) (_internalevents s)
    (_sent_by_self s) (login_info s) (_status s).
Definition set_usermapcache (v : gmap string User) (s : Slack) : Slack :=
  mkSlack (calls s) (slept s) (_usercache s) v (_imcache s) (_channelscache s)
    (_get_members_cache s) (_get_members_cache_cursor s) (_internalevents s)
    (_sent_by_self s) (login_info s) (_status s).
Definition set_imcache (v : gmap string string) (s : Slack) : Slack :=
  mkSlack (calls s) (slept s) (_usercache s) (_usermapcache s) v (_channelscache s)
    (_get_members_cache s) (_get_members_cache_cursor s) (_internalevents s)
    (_sent_by_self s) (login_info s) (_status s).
Definition set_channelscache (v : list Channel) (s : Slack) : Slack :=
  mkSlack (calls s) (slept s) (_usercache s) (_usermapcache s) (_imcache s) v
    (_get_members_cache s) (_get_members_cache_cursor s) (_internalevents s)
    (_sent_by_self s) (login_info s) (_status s).
Definition set_members_cache (v : gmap string (gset string)) (s : Slack) : Slack :=
  mkSlack (calls s) (slept s) (_usercache s) (_usermapcache s) (_imcache s) (_channelscache s)
    v (_get_members_cache_cursor s) (_internalevents s)
    (_sent_by_self s) (login_info s) (_status s).
Definition set_members_cursor (v : gmap string (option string)) (s : Slack) : Slack :=
  mkSlack (calls s) (slept s) (_usercache s) (_usermapcache s) (_imcache s) (_channelscache s)
    (_get_members_cache s) v (_internalevents s)
    (_sent_by_self s) (login_info s) (_status s).
Definition set_internalevents (v : list SlackEvent) (s : Slack) : Slack :=
  mkSlack (calls s) (slept s) (_usercache s) (_usermapcache s) (_imcache s) (_channelscache s)
    (_get_members_cache s) (_get_members_cache_cursor s) v
    (_sent_by_self s) (login_info s) (_status s).
Definition set_sent_by_self (v : gset Z) (s : Slack) : Slack :=
  mkSlack (calls s) (slept s) (_usercache s) (_usermapcache s) (_imcache s) (_channelscache s)
    (_get_members_cache s) (_get_members_cache_cursor s) (_internalevents s)
    v (login_info s) (_status s).
Definition set_login_info (v : option LoginInfo) (s : Slack) : Slack :=
  mkSlack (calls s) (slept s) (_usercache s) (_usermapcache s) (_imcache s) (_channelscache s)
    (_get_members_cache s) (_get_members_cache_cursor s) (_internalevents s)
    (_sent_by_self s) v (_status s).
Definition set_last_timestamp (v : Z) (s : Slack) : Slack :=
  mkSlack (calls s) (slept s) (_usercache s) (_usermapcache s) (_imcache s) (_channelscache s)
    (_get_members_cache s) (_get_members_cache_cursor s) (_internalevents s)
    (_sent_by_self s) (login_info s) (mkStatus v).

(** [Slack.__init__] with no previous status. *)
Definition Slack_init : Slack :=
  mkSlack [] [] ∅ ∅ ∅ [] ∅ ∅ [] ∅ None (mkStatus 0).

(** [self._internalevents.append(ev)] *)
Definition push_event (ev : SlackEvent) : SM unit :=
  modify (λ s, set_internalevents (_internalevents s ++ [ev]) s).

(** ** Pure helpers of slack.py *)

(** [str.replace('\n', ' | ')] *)
Fixpoint replace_newlines (s : string) : string :=
  match s with
  | EmptyString => EmptyString
  | String c s' =>
      if Ascii.eqb c "010"%char then " | " +:+ replace_newlines s'
      else String c (replace_newlines s')
  end.

(** [Channel.real_topic] *)
Definition real_topic (c : Channel) : string :=
  let t := if decide (topic c = "") then purpose c else topic c in
  replace_newlines t.

(** [Channel.name] *)
Definition ch_name (c : Channel) : string := name_normalized c.

(** ['%s' % x] for an optional string *)
Definition show_opt (o : option string) : string := default "None" o.

(** [File.announce]: the channel is the last element of
    [channels + groups + ims]; [pop()] on an empty list raises. *)
Definition announce (f : File) : option Message :=
  match last (f_channels f ++ f_groups f ++ f_ims f) with
  | None => None
  | Some c =>
      Some (mkMessage c (f_user f)
        ("[file upload] " +:+ show_opt (f_name f) +:+ String "010"%char
           (show_opt (mimetype f) +:+ " " +:+ pretty (f_size f) +:+ " bytes" +:+
            String "010"%char (url_private f))))
  end.

(** [f.channels.append(channel_id)] *)
Definition file_add_channel (c : string) (f : File) : File :=
  mkFile (f_id f) (url_private f) (f_size f) (f_user f) (f_name f) (f_title f)
    (mimetype f) (f_channels f ++ [c]) (f_groups f) (f_ims f).

(** [msg.thread_ts = None] *)
Definition clear_thread (m : HistMsg) : HistMsg :=
  mkHistMsg (h_kind m) (h_text m) (h_ts m) (h_files m) None.

(** [msg.thread_ts and float(msg.thread_ts) == msg.ts] *)
Definition opens_thread (m : HistMsg) : bool :=
  match h_thread_ts m with
  | Some t => bool_decide (t = h_ts m)
  | None => false
  end.

(** The event injected for a history entry. *)
Definition history_event (channel_id : string) (m : HistMsg) : SlackEvent :=
  match h_kind m with
  | HUser u => Msg (mkMessage channel_id u (h_text m))
  | HBot b n => MessageBot (h_text m) n channel_id b
  end.

(** [load(r, History)]: fails unless [ok] is true and the body is a history. *)
Definition load_History (r : Resp) : option (list HistMsg * bool * option string) :=
  match ok r, body r with
  | true, BHistory ms more cur => Some (ms, more, cur)
  | _, _ => None
  end.

Definition USELESS_EVENTS : list string :=
  [ "channel_marked"; "group_marked"; "mpim_marked"; "hello"; "dnd_updated_user";
    "reaction_added"; "user_typing"; "file_deleted"; "file_public"; "file_created";
    "desktop_notification" ].

Definition is_useless (t : option string) : bool :=
  match t with
  | Some t => bool_decide (t ∈ USELESS_EVENTS)
  | None => false
  end.

(** [load(event, Union[TopicChange, FileShared, MessageBot, MessageEdit,
    MessageDelete, GroupJoined, Join, Leave])]: the first shape whose
    literal tags and required keys are all present. *)
Definition load_typed (e : RawEvent) : option SlackEvent :=
  let t := r_type e in
  let subt := r_subtype e in
  if decide (t = Some "message" ∧ subt = Some "group_topic") then
    tp ← r_topic e; c ← r_channel e; u ← r_user e; Some (TopicChange tp c u)
  else if decide (t = Some "file_shared") then
    f ← r_file_id e; u ← r_user_id e; ts ← r_ts e; Some (FileShared f u ts)
  else if decide (t = Some "message" ∧ subt = Some "bot_message") then
    tx ← r_text e; n ← r_username e; c ← r_channel e;
    Some (MessageBot tx n c (r_bot_id e))
  else if decide (t = Some "message" ∧ subt = Some "message_changed") then
    c ← r_channel e; p ← r_previous_message e; m ← r_message e;
    Some (MessageEdit c p m)
  else if decide (t = Some "message" ∧ subt = Some "message_deleted") then
    c ← r_channel e; p ← r_previous_message e; Some (MessageDelete c p)
  else if decide (t = Some "group_joined") then
    c ← r_channel_obj e; Some (GroupJoined c)
  else if decide (t = Some "member_joined_channel") then
    u ← r_user e; c ← r_channel e; Some (Join u c)
  else if decide (t = Some "member_left_channel") then
    u ← r_user e; c ← r_channel e; Some (Leave u c)
  else None.

(** [load(event, Message)] *)
Definition load_Message (e : RawEvent) : option Message :=
  c ← r_channel e; u ← r_user e; t ← r_text e; Some (mkMessage c u t).

(** [MessageEdit.is_changed] *)
Definition is_changed (previous current : NoChanMessage) : bool :=
  negb (bool_decide (nc_text previous = nc_text current)).

(** ** irc.py: data model *)

(** Numeric replies ([Replies]). *)
Definition RPL_LUSERCLIENT : Z := 251.
Definition RPL_USERHOST : Z := 302.
Definition RPL_UNAWAY : Z := 305.
Definition RPL_NOWAWAY : Z := 306.
Definition RPL_WHOISUSER : Z := 311.
Definition RPL_WHOISOPERATOR : Z := 313.
Definition RPL_ENDOFWHO : Z := 315.
Definition RPL_ENDOFWHOIS : Z := 318.
Definition RPL_LIST : Z := 322.
Definition RPL_LISTEND : Z := 323.
Definition RPL_CHANNELMODEIS : Z := 324.
Definition RPL_TOPIC : Z := 332.
Definition RPL_WHOREPLY : Z := 352.
Definition RPL_NAMREPLY : Z := 353.
Definition RPL_ENDOFNAMES : Z := 366.
Definition ERR_NOSUCHNICK : Z := 401.
Definition ERR_NOSUCHCHANNEL : Z := 403.
Definition ERR_UNKNOWNCOMMAND : Z := 421.
Definition ERR_FILEERROR : Z := 424.
Definition ERR_ERRONEUSNICKNAME : Z := 432.

(** #: Inactivity days to hide a MPIM, in seconds *)
Definition MPIM_HIDE_DELAY : Z := 50 * 86400.

(** The lines the session writes to the client socket, one constructor per
    format string of the source. *)
Inductive Line :=
  | Reply (host : string) (code : Z) (tokens : list string) (message : string)
      (* b':%s %03d %s :%s\n', tokens start with the nickname *)
  | JoinLine (nick channel_name : string)
      (* b':%s!salvo@127.0.0.1 JOIN %s\n' *)
  | Pong (host lbl : string)
      (* b':%s PONG %s %s\n' *)
  | Privmsg (from_ to message : string)
      (* b':%s!salvo@127.0.0.1 PRIVMSG %s :%s\n' *)
  | UserJoin (name rname dest : string)
      (* b':%s!%s@127.0.0.1 JOIN :%s\n' *)
  | UserPart (name rname dest : string).
      (* b':%s!%s@127.0.0.1 PART %s\n' *)

Global Instance Line_eq_dec : EqDecision Line.
Proof. solve_decision. Defined.

Record Client := mkClient {
  nick : string;
  username : string;
  realname : string;
  parted_channels : gset string;
  hostname : string;
  sl_client : Slack;
  nouserlist : bool;
  autojoin : bool;
  _usersent : bool;
  _held_events : list SlackEvent;
  written : list Line;                  (* everything passed to [self.s.write] *)
}.

Definition CM (A : Type) : Type := M Client A.

Definition set_nick (v : string) (c : Client) : Client :=
  mkClient v (username c) (realname c) (parted_channels c) (hostname c) (sl_client c)
    (nouserlist c) (autojoin c) (_usersent c) (_held_events c) (written c).
Definition set_parted_channels (v : gset string) (c : Client) : Client :=
  mkClient (nick c) (username c) (realname c) v (hostname c) (sl_client c)
    (nouserlist c) (autojoin c) (_usersent c) (_held_events c) (written c).
Definition set_sl_client (v : Slack) (c : Client) : Client :=
  mkClient (nick c) (username c) (realname c) (parted_channels c) (hostname c) v
    (nouserlist c) (autojoin c) (_usersent c) (_held_events c) (written c).
Definition set_usersent (v : bool) (c : Client) : Client :=
  mkClient (nick c) (username c) (realname c) (parted_channels c) (hostname c) (sl_client c)
    (nouserlist c) (autojoin c) v (_held_events c) (written c).
Definition set_held_events (v : list SlackEvent) (c : Client) : Client :=
  mkClient (nick c) (username c) (realname c) (parted_channels c) (hostname c) (sl_client c)
    (nouserlist c) (autojoin c) (_usersent c) v (written c).
Definition set_written (v : list Line) (c : Client) : Client :=
  mkClient (nick c) (username c) (realname c) (parted_channels c) (hostname c) (sl_client c)
    (nouserlist c) (autojoin c) (_usersent c) (_held_events c) v.

(** [Client.__init__] *)
Definition Client_init (host : string) (sl : Slack) (nouserlist autojoin : bool) : Client :=
  mkClient "" "" "" ∅ host sl nouserlist autojoin false [] [].

(** [self.s.write(line)] *)
Definition write (l : Line) : CM unit :=
  modify (λ c, set_written (written c ++ [l]) c).

(** A call on [self.sl_client]. *)
Definition slack {A} (m : SM A) : CM A := lift sl_client set_sl_client m.

(** ** Byte-string helpers *)

(** [s.split(sep, maxsplit)] for a one-character separator *)
Fixpoint split_char (sep : ascii) (maxsplit : nat) (s : string) : list string :=
  match s with
  | EmptyString => [EmptyString]
  | String c s' =>
      if Ascii.eqb c sep then
        match maxsplit with
        | O => [s]
        | S n => EmptyString :: split_char sep n s'
        end
      else
        match split_char sep maxsplit s' with
        | [] => [String c EmptyString]
        | w :: ws => String c w :: ws
        end
  end.

(** [s.split(b' ', n)] and [s.split(b' ')] *)
Definition split_space (maxsplit : nat) (s : string) : list string :=
  split_char " " maxsplit s.
Definition split_all (sep : ascii) (s : string) : list string :=
  split_char sep (String.length s) s.

(** [sep in s] *)
Fixpoint contains_char (sep : ascii) (s : string) : bool :=
  match s with
  | EmptyString => false
  | String c s' => Ascii.eqb c sep || contains_char sep s'
  end.

(** [s[1:]] and [s[:-1]] *)
Definition drop_first (s : string) : string :=
  match s with
  | EmptyString => EmptyString
  | String _ s' => s'
  end.
Fixpoint drop_last (s : string) : string :=
  match s with
  | EmptyString => EmptyString
  | String c EmptyString => EmptyString
  | String c s' => String c (drop_last s')
  end.

Definition startswith (p s : string) : bool := String.prefix p s.
Definition endswith (p s : string) : bool :=
  String.prefix (String.rev p) (String.rev s).

(** [bytes.strip()] *)
Definition is_space (c : ascii) : bool :=
  let n := nat_of_ascii c in
  (Nat.eqb n 32 || (Nat.leb 9 n && Nat.leb n 13))%nat.
Fixpoint lstrip (s : string) : string :=
  match s with
  | EmptyString => EmptyString
  | String c s' => if is_space c then lstrip s' else s
  end.
Definition strip (s : string) : string :=
  String.rev (lstrip (String.rev (lstrip s))).

(** [sep.join(l)] *)
Fixpoint join_with (sep : string) (l : list string) : string :=
  match l with
  | [] => EmptyString
  | [x] => x
  | x :: l' => x +:+ sep +:+ join_with sep l'
  end.

(** [s.replace(' ', '_')] *)
Fixpoint spaces_to_underscores (s : string) : string :=
  match s with
  | EmptyString => EmptyString
  | String c s' =>
      String (if Ascii.eqb c " " then "_"%char else c) (spaces_to_underscores s')
  end.

(** ['%03d' % code] *)
Definition pad3 (code : Z) : string :=
  let d := pretty code in
  if decide (0 <= code < 10) then "00" +:+ d
  else if decide (10 <= code < 100) then "0" +:+ d
  else d.

(** The bytes written for a line. *)
Definition render (l : Line) : string :=
  let nl := String "010"%char EmptyString in
  match l with
  | Reply host code tokens message =>
      ":" +:+ host +:+ " " +:+ pad3 code +:+ " " +:+ join_with " " tokens +:+
      " :" +:+ message +:+ nl
  | JoinLine nick channel_name =>
      ":" +:+ nick +:+ "!salvo@127.0.0.1 JOIN " +:+ channel_name +:+ nl
  | Pong host lbl => ":" +:+ host +:+ " PONG " +:+ host +:+ " " +:+ lbl +:+ nl
  | Privmsg from_ to message =>
      ":" +:+ from_ +:+ "!salvo@127.0.0.1 PRIVMSG " +:+ to +:+ " :" +:+ message +:+ nl
  | UserJoin name rname dest =>
      ":" +:+ name +:+ "!" +:+ rname +:+ "@127.0.0.1 JOIN :" +:+ dest +:+ nl
  | UserPart name rname dest =>
      ":" +:+ name +:+ "!" +:+ rname +:+ "@127.0.0.1 PART " +:+ dest +:+ nl
  end.

(** What [_message] reads from the event it is handed. *)
Record Outgoing := mkOutgoing {
  o_user : option string;     (* [None] for a [MessageBot]: no lookup *)
  o_channel : string;
  o_text : string;
  o_action : bool;            (* [isinstance(sl_ev, slack.ActionMessage)] *)
}.

(** ** Derived notions used by the statements *)

(** The events [_history] queues for one entry that opens no thread: the
    announcements of its files, then the message; nothing for the entry
    that repeats the last seen timestamp. *)
Definition file_events (channel_id : string) (fs : list File) : list SlackEvent :=
  omap (λ f, Msg <$> announce (file_add_channel channel_id f)) fs.

Definition entry_events (channel_id : string) (last_ts : Z) (m : HistMsg)
    : list SlackEvent :=
  if decide (h_ts m = last_ts) then []
  else file_events channel_id (h_files m) ++ [history_event channel_id m].

(** The same events in the order [event] hands them out: it pops the
    queue from its tail. *)
Definition delivery_of (channel_id : string) (last_ts : Z) (m : HistMsg)
    : list SlackEvent :=
  rev (entry_events channel_id last_ts m).


(** The three statements that touch [_sent_by_self], and what each does
    to the set. *)
Inductive SentOp :=
  | Sent (ts : Z)       (* send_message: [self._sent_by_self.add(response.ts)] *)
  | Seen (ts : Z)       (* event: [if ts in self._sent_by_self: ...remove(ts)] *)
  | Purge (now : Z).    (* [_triage_sent_by_self] *)

Definition sent_op (op : SentOp) (sent : gset Z) : gset Z :=
  match op with
  | Sent ts => {[ts]} ∪ sent
  | Seen ts => sent ∖ {[ts]}
  | Purge now => filter (λ i, ¬ (now - i >= 10)) sent
  end.



(** [if ts > self._status.last_timestamp: ...] *)
Definition bump_timestamp (ts : Z) (s : Slack) : Slack :=
  if decide (ts > last_timestamp (_status s)) then set_last_timestamp ts s else s.








(** A session action that touches neither the registration flag nor the
    held-event queue. *)
Definition Quiet {A} (m : CM A) : Prop :=
  ∀ c, _usersent (m c).2 = _usersent c ∧ _held_events (m c).2 = _held_events c.

(** [b'\x01ACTION ' + i + b'\x01'] for an action message. *)
Definition wrap_action (action : bool) (i : string) : string :=
  if action then String "001" "ACTION " +:+ i +:+ String "001" "" else i.


(** ** Notions used by the further properties *)

(** Every state a call can end in is related to the state it started in. *)
Definition Along {A} (R : relation Slack) (m : SM A) : Prop :=
  ∀ s, R s (m s).2.

(** The two user caches agree: an entry of the name cache is filed under
    the name of its user, and every user cached by id has an entry under
    its name. *)
Definition users_consistent (s : Slack) : Prop :=
  (∀ n u, _usermapcache s !! n = Some u → u_name u = n) ∧
  (∀ i u, _usercache s !! i = Some u → is_Some (_usermapcache s !! u_name u)).

(** Relations between the state before and after a call. *)
Definition same_users : relation Slack :=
  λ s s', _usercache s' = _usercache s ∧ _usermapcache s' = _usermapcache s.
Definition timestamp_grows : relation Slack :=
  λ s s', last_timestamp (_status s) <= last_timestamp (_status s').
Definition sent_shrinks : relation Slack :=
  λ s s', _sent_by_self s' ⊆ _sent_by_self s.
Definition calls_extend (P : Request → Prop) : relation Slack :=
  λ s s', ∃ l, calls s' = calls s ++ l ∧ Forall P l.

Definition keeps_consistent : relation Slack :=
  λ s s', users_consistent s → users_consistent s'.

(** The requests that only read from the remote service. *)
Definition read_only (req : Request) : Prop :=
  match req with
  | ReqRtmRead | ReqRtmConnect | ReqList _ | ReqHistory _ _ _ | ReqReplies _ _ _ => True
  | _ => False
  end.

(** The request [_channels] makes. *)
Definition list_channels : Request :=
  ReqList "public_channel,private_channel,mpim".

(** The last processed timestamp after the history entries [l], none of
    which opens a thread: the entry that repeats [last_ts] is passed over,
    the others raise the timestamp to theirs when it is greater. *)
Definition seen_through (last_ts : Z) (l : list HistMsg) (t0 : Z) : Z :=
  foldl (λ acc m, if decide (h_ts m = last_ts) then acc else Z.max acc (h_ts m)) t0 l.

(** The tokens of the dispatch table of [Client.command]. *)
Definition known_commands : list string :=
  [ "NICK"; "USER"; "PING"; "JOIN"; "PRIVMSG"; "LIST"; "WHO"; "MODE"; "PART";
    "AWAY"; "TOPIC"; "KICK"; "INVITE"; "sendfile"; "QUIT"; "USERHOST"; "whois" ].

(** [cmdid] in [Client.command]: the text before the first space. *)
Definition command_token (cmd : string) : string :=
  default cmd (head (split_space 1 cmd)).

(** The next request is answered, and with [ok]. *)
Definition accepted (remote : Remote) (s : Slack) (req : Request) : bool :=
  match remote (length (calls s)) req with
  | Some r => ok r
  | None => false
  end.


(** ** A small workspace for the examples *)

Definition demo_info : LoginInfo := mkLoginInfo "acme" "acme.example" "alice".

Definition demo_general : Channel :=
  mkChannel "C1" "general" "" "Talk" 3 true true false false None.
(** A public channel the account has not joined. *)
Definition demo_random : Channel :=
  mkChannel "C2" "random" "" "" 2 false true false false None.
(** A multi-party-direct channel with no recorded activity. *)
Definition demo_quiet_mpim : Channel :=
  mkChannel "G7" "mpdm-alice--bob--carol-1" "" "" 3 true false true true None.

Definition demo_bob : User :=
  mkUser "U2" "bob" (mkProfile "Bob Builder" None "" false false) false false.

Definition demo_entry (user text : string) (ts : Z) (thread_ts : option Z) : HistMsg :=
  mkHistMsg (HUser user) text ts [] thread_ts.
Definition demo_later : HistMsg := demo_entry "U2" "later" 30 None.
Definition demo_older : HistMsg := demo_entry "U2" "older" 15 None.
Definition demo_root : HistMsg := demo_entry "U1" "root" 20 (Some 20).
Definition demo_reply1 : HistMsg := demo_entry "U3" "first reply" 25 (Some 20).
Definition demo_reply2 : HistMsg := demo_entry "U3" "second reply" 35 (Some 20).

(** A remote whose push stream is down and whose calls answer; [page] is
    the history of channel C1, listed newest first as the service does. *)
Definition demo_remote (page : list HistMsg) : Remote := λ _ req,
  match req with
  | ReqRtmConnect => Some (mkResp true (BLogin demo_info))
  | ReqList "im" => Some (mkResp true (BIms []))
  | ReqList _ =>
      Some (mkResp true (BChannels [demo_general; demo_random; demo_quiet_mpim]))
  | ReqHistory "C1" _ None => Some (mkResp true (BHistory page false None))
  | ReqHistory _ _ _ => Some (mkResp true (BHistory [] false None))
  | ReqReplies "C1" 20 None =>
      Some (mkResp true (BHistory [demo_root; demo_reply1; demo_reply2] false None))
  | ReqMembers "C1" None => Some (mkResp true (BMembers ["U1"; "U2"] (Some "page2")))
  | ReqMembers "C1" (Some "page2") =>
      Some (mkResp true (BMembers ["U2"; "U3"] (Some "")))
  | _ => None
  end.

(** A remote that fails every call. *)
Definition remote_down : Remote := λ _ _, None.

(** A remote whose push stream hands out [events] at every read. *)
Definition demo_stream (events : list RawEvent) : Remote := λ _ req,
  match req with
  | ReqRtmRead => Some (mkResp true (BEvents events))
  | _ => None
  end.


(** [member_joined_channel] for user U3 in channel C1. *)
Definition demo_raw_join : RawEvent :=
  mkRaw (Some "member_joined_channel") None None (Some "C1") None (Some "U3")
    None None None None None None None None None.

(** Text transformations that change nothing. *)
Definition demo_text : string → string → SM string := λ _ text s, (Ok text, s).
Definition demo_magic : string → SM string := λ text s, (Ok text, s).
Definition demo_diff : string → string → string := λ _ current, current.
(** The text of an exception. *)
Definition demo_str : exn → string := λ e,
  match e with
  | ResponseException => "refused"
  | TransportError => "unreachable"
  | _ => "error"
  end.
Definition demo_readable : string → bool := λ _, true.

(** A logged-in remote state that knows user bob. *)
Definition demo_slack : Slack :=
  set_usermapcache {["bob" := demo_bob]}
    (set_usercache {["U2" := demo_bob]}
       (set_login_info (Some demo_info) Slack_init)).

(** Sessions of nickname alice, without user lists: before registration
    with auto-join off and on, and after registration. *)
Definition demo_client : Client :=
  set_nick "alice" (Client_init "gw" demo_slack true false).
Definition demo_registered : Client := set_usersent true demo_client.

(** An administrator with an e-mail address and a real name of three
    words. *)
Definition demo_carol : User :=
  mkUser "U3" "carol"
    (mkProfile "Carol Of Acme" (Some "carol@acme.example") "" false false) true false.

(** A remote that answers the directory, the lists and the posts, and
    accepts a topic change in C1; every other request fails. *)
Definition demo_office : Remote := λ _ req,
  match req with
  | ReqUsersList => Some (mkResp true (BUsers [demo_bob; demo_carol]))
  | ReqUsersInfo "U3" => Some (mkResp true (BUser demo_carol))
  | ReqList "im" => Some (mkResp true (BIms [mkIM "D2" "U2"]))
  | ReqList _ => Some (mkResp true (BChannels [demo_general; demo_random]))
  | ReqMembers "C1" _ => Some (mkResp true (BMembers ["U2"; "U9"] (Some "")))
  | ReqChat _ _ _ => Some (mkResp true (BSent (Some 42)))
  | ReqSetTopic "C1" _ => Some (mkResp true BNone)
  | ReqSetPresence _ => Some (mkResp true BNone)
  | ReqFilesUpload _ _ => Some (mkResp true BNone)
  | _ => None
  end.

(** A remote that refuses the directory request. *)
Definition demo_refusing : Remote := λ _ _, Some (mkResp false BNone).

(** The remote state once the channel list of [demo_office] is cached. *)
Definition demo_listed : Slack := set_channelscache [demo_general; demo_random] demo_slack.
Definition demo_listed_client : Client := set_sl_client demo_listed demo_registered.

(** A topic change in C1 by U2, stamped 50. *)
Definition demo_raw_topic : RawEvent :=
  mkRaw (Some "message") (Some "group_topic") (Some 50) (Some "C1") None (Some "U2")
    None None None None (Some "new topic") None None None None.

(** The remote state with the conversation with U2 cached. *)
Definition demo_chatting : Slack :=
  set_imcache {["U2" := "D2"]} demo_slack.

(** A remote whose member lists come without a next cursor: C1 has the
    member U1 at the first request and U1 and U2 from then on. *)
Definition demo_unpaged : Remote := λ n req,
  match req with
  | ReqMembers "C1" None =>
      Some (mkResp true (BMembers (if decide (n = 0%nat) then ["U1"] else ["U1"; "U2"])
                           None))
  | _ => None
  end.

(** ** slack.py: class [Slack] *)

Section Gateway.

#[local] Set Default Proof Using "Type".

(** The remote service behind [SlackClient]. *)
Variable remote : Remote.

(** [open(filename, 'rb')] succeeds. *)
Variable readable : string → bool.

(** [self.client.api_call(...)]: logged, answered by the remote. *)
Definition api_call (req : Request) : SM Resp := λ s,
  let s' := set_calls (calls s ++ [req]) s in
  match remote (length (calls s)) req with
  | Some r => (Ok r, s')
  | None => (Raise TransportError, s')
  end.

(** [asyncio.sleep(delay)] *)
Definition sleep (delay : Z) : SM unit :=
  modify (λ s, set_slept (slept s ++ [delay]) s).

(** [Slack.login] *)
Definition login : SM unit :=
  r ← api_call ReqLogin;
  match body r with
  | BLogin info => modify (set_login_info (Some info))
  | _ => raise LoadError
  end.

(** The [while True] loop of [_thread_history].  The comprehension filter
    [i.ts != i.thread_ts] compares a float with an optional string and so
    keeps every message. *)
Fixpoint thread_pages (fuel : nat) (channel : string) (thread_id : Z)
    (cursor : option string) (r : list HistMsg) : SM (list HistMsg) :=
  match fuel with
  | O => timeout
  | S fuel' =>
      p ← api_call (ReqReplies channel thread_id cursor);
      match load_History p with
      | None => mret r
      | Some (messages, has_more, meta) =>
          let r := r ++ messages in
          match has_more, meta with
          | true, Some next => thread_pages fuel' channel thread_id (Some next) r
          | _, _ => mret r
          end
      end
  end.

(** [Slack._thread_history] *)
Definition _thread_history (fuel : nat) (channel : string) (thread_id : Z)
    : SM (list HistMsg) :=
  r ← thread_pages fuel channel thread_id None [];
  match r with
  | [] => raise IndexError                      (* r[0] *)
  | r0 :: rest => mret (clear_thread r0 :: rest)
  end.

(** [Slack._channels] *)
Definition _channels : SM (list Channel) :=
  cache ← gets _channelscache;
  match cache with
  | _ :: _ => mret cache
  | [] =>
      r ← api_call (ReqList "public_channel,private_channel,mpim");
      if ok r then
        match body r with
        | BChannels l => modify (set_channelscache l) ;; mret l
        | _ => raise KeyError                   (* r['channels'] *)
        end
      else raise ResponseException
  end.

(** [Slack.channels] *)
Definition channels (refresh : bool) : SM (list Channel) :=
  (if refresh then modify (set_channelscache []) else mret tt) ;;
  _channels.

(** [Slack.get_channel] and [Slack.get_channel_by_name]: the cache, then a
    refreshed list. *)
Definition find_channel (p : Channel → bool) : SM Channel :=
  l0 ← channels false;
  match find p l0 with
  | Some c => mret c
  | None =>
      l1 ← channels true;
      match find p l1 with
      | Some c => mret c
      | None => raise KeyError
      end
  end.

Definition get_channel (id_ : string) : SM Channel :=
  find_channel (λ c, bool_decide (ch_id c = id_)).

Definition get_channel_by_name (name : string) : SM Channel :=
  find_channel (λ c, bool_decide (ch_name c = name)).

(** The message loop of [_history] over [msg_list]. *)
Fixpoint history_msgs (fuel : nat) (channel_id : string) (last_ts : Z)
    (msg_list : list HistMsg) : SM unit :=
  match fuel with
  | O => timeout
  | S fuel' =>
      match msg_list with
      | [] => mret tt
      | msg :: msg_list =>
          if decide (h_ts msg = last_ts) then
            history_msgs fuel' channel_id last_ts msg_list
          else
            modify (λ s, if decide (last_timestamp (_status s) < h_ts msg)
                         then set_last_timestamp (h_ts msg) s else s) ;;
            for_each (h_files msg) (λ f,
              match announce (file_add_channel channel_id f) with
              | Some ev => push_event (Msg ev)
              | None => raise IndexError
              end) ;;
            if opens_thread msg then
              l ← _thread_history fuel' channel_id (h_ts msg);
              history_msgs fuel' channel_id last_ts (rev l ++ msg_list)
            else
              push_event (history_event channel_id msg) ;;
              history_msgs fuel' channel_id last_ts msg_list
      end
  end.

(** The cursor loop of [_history] for one channel. *)
Fixpoint history_pages (fuel : nat) (channel_id : string) (last_ts : Z)
    (cursor : option string) : SM unit :=
  match fuel with
  | O => timeout
  | S fuel' =>
      r ← api_call (ReqHistory channel_id last_ts cursor);
      match load_History r with
      | None => mret tt
      | Some (messages, has_more, meta) =>
          history_msgs fuel' channel_id last_ts messages ;;
          match has_more, meta with
          | true, Some next => history_pages fuel' channel_id last_ts (Some next)
          | _, _ => mret tt
          end
      end
  end.

(** [Slack._history] *)
Definition _history (fuel : nat) : SM unit :=
  last_ts ← gets (λ s, last_timestamp (_status s));
  if decide (last_ts = 0) then mret tt
  else
    chans ← channels false;
    for_each chans (λ channel,
      if is_member channel then history_pages fuel (ch_id channel) last_ts None
      else mret tt).

(** [load(r, Response)] followed by [if not response.ok: raise ...] *)
Definition check_ok (r : Resp) : SM unit :=
  if ok r then mret tt else raise ResponseException.

(** [Slack.away] *)
Definition away (is_away : bool) : SM unit :=
  let status := if is_away then "away" else "auto" in
  r ← api_call (ReqSetPresence status);
  check_ok r.

(** [Slack.topic] *)
Definition set_topic (channel : Channel) (new_topic : string) : SM unit :=
  r ← api_call (ReqSetTopic (ch_id channel) new_topic);
  check_ok r.

(** [Slack.kick] *)
Definition kick (channel : Channel) (user : User) : SM unit :=
  r ← api_call (ReqKick (ch_id channel) (u_id user));
  check_ok r.

(** [Slack.join] *)
Definition join (channel : Channel) : SM unit :=
  r ← api_call (ReqJoin (ch_id channel));
  check_ok r.

(** [Slack.invite], called with a single user *)
Definition invite (channel : Channel) (user : User) : SM unit :=
  r ← api_call (ReqInvite (ch_id channel) (u_id user));
  check_ok r.

(** [if cursor:] keeps a cursor that is neither [None] nor empty. *)
Definition cursor_kwarg (cursor : option string) : option string :=
  match cursor with
  | Some c => if decide (c = "") then None else Some c
  | None => None
  end.

(** [Slack.get_members] *)
Definition get_members (id_ : string) : SM (gset string) :=
  cached ← gets (λ s, default ∅ (_get_members_cache s !! id_));
  cursor ← gets (λ s, mjoin (_get_members_cache_cursor s !! id_));
  if decide (cursor = Some "") then
    (* The cursor is fully iterated *)
    mret cached
  else
    r ← api_call (ReqMembers id_ (cursor_kwarg cursor));
    check_ok r ;;
    match body r with
    | BMembers members next_cursor =>
        let newusers : gset string := list_to_set members in
        (* Generate all the Join events, if this is not the 1st iteration *)
        known ← gets (λ s, bool_decide (id_ ∈ dom (_get_members_cache s)));
        (if known : bool then
           for_each (elements (newusers ∖ cached)) (λ i, push_event (Join i id_))
         else mret tt) ;;
        modify (λ s, set_members_cache
                       (<[id_ := cached ∪ newusers]> (_get_members_cache s)) s) ;;
        modify (λ s, set_members_cursor
                       (<[id_ := next_cursor]> (_get_members_cache_cursor s)) s) ;;
        gets (λ s, default ∅ (_get_members_cache s !! id_))
    | _ => raise KeyError                       (* r['members'] *)
    end.

(** [Slack.get_ims] *)
Definition get_ims : SM (list IM) :=
  r ← api_call (ReqList "im");
  if ok r then
    match body r with
    | BIms l => mret l
    | _ => raise KeyError
    end
  else raise ResponseException.

(** The second loop of [get_im]. *)
Fixpoint scan_ims (im_id : string) (ims : list IM) : SM (option IM) :=
  match ims with
  | [] => mret None
  | im :: ims =>
      modify (λ s, set_imcache (<[IM_user im := IM_id im]> (_imcache s)) s) ;;
      if decide (IM_id im = im_id) then mret (Some im) else scan_ims im_id ims
  end.

(** [Slack.get_im] *)
Definition get_im (im_id : string) : SM (option IM) :=
  if negb (String.prefix "D" im_id) then mret None
  else
    cache ← gets _imcache;
    match find (λ kv : string * string, bool_decide (im_id = kv.2)) (map_to_list cache) with
    | Some (uid, imid) => mret (Some (mkIM imid uid))
    | None => ims ← get_ims; scan_ims im_id ims
    end.

(** [Slack.get_user_by_name] *)
Definition get_user_by_name (name : string) : SM User :=
  cache ← gets _usermapcache;
  match cache !! name with
  | Some u => mret u
  | None => raise KeyError
  end.

(** [Slack.prefetch_users] *)
Definition prefetch_users : SM unit :=
  r ← api_call ReqUsersList;
  if ok r then
    match body r with
    | BUsers members =>
        for_each members (λ user,
          modify (λ s, set_usercache (<[u_id user := user]> (_usercache s)) s) ;;
          modify (λ s, set_usermapcache (<[u_name user := user]> (_usermapcache s)) s))
    | _ => raise KeyError
    end
  else mret tt.

(** [Slack.get_user] *)
Definition get_user (id_ : string) : SM User :=
  cache ← gets _usercache;
  match cache !! id_ with
  | Some u => mret u
  | None =>
      r ← api_call (ReqUsersInfo id_);
      if ok r then
        match body r with
        | BUser u =>
            modify (λ s, set_usercache (<[id_ := u]> (_usercache s)) s) ;;
            modify (λ s, set_usermapcache (<[u_name u := u]> (_usermapcache s)) s) ;;
            mret u
        | _ => raise KeyError
        end
      else raise KeyError
  end.

(** [Slack.get_file] *)
Definition get_file (fileid : string) : SM File :=
  r ← api_call (ReqFilesInfo fileid);
  if ok r then
    match body r with
    | BFile f => mret f
    | _ => raise KeyError
    end
  else raise KeyError.

(** [Slack.send_file] *)
Definition send_file (channel_id filename : string) : SM unit :=
  if readable filename then
    r ← api_call (ReqFilesUpload channel_id filename);
    check_ok r
  else raise OSError.

(** [Slack._triage_sent_by_self]: drop what is at least 10 old. *)
Definition _triage_sent_by_self (now : Z) : SM unit :=
  modify (λ s, set_sent_by_self (filter (λ i, ¬ (now - i >= 10)) (_sent_by_self s)) s).

(** [Slack.send_message] *)
Definition send_message (channel_id msg : string) (action : bool) : SM unit :=
  let api := if action then "chat.meMessage" else "chat.postMessage" in
  r ← api_call (ReqChat api channel_id msg);
  match ok r, body r with
  | true, BSent (Some ts) =>
      if decide (ts = 0) then raise ResponseException
      else modify (λ s, set_sent_by_self ({[ts]} ∪ _sent_by_self s) s)
  | _, _ => raise ResponseException
  end.

(** [Slack.send_message_to_user] *)
Definition send_message_to_user (user_id msg : string) (action : bool) : SM unit :=
  cache ← gets _imcache;
  channel_id ←
    match cache !! user_id with
    | Some channel_id => mret channel_id
    | None =>
        ims ← get_ims;
        channel_id ←
          match find (λ i, bool_decide (IM_user i = user_id)) ims with
          | Some i => mret (IM_id i)
          | None =>
              r ← api_call (ReqImOpen user_id);
              check_ok r ;;
              match body r with
              | BImOpened channel_id => mret channel_id
              | _ => raise KeyError
              end
          end;
        modify (λ s, set_imcache (<[user_id := channel_id]> (_imcache s)) s) ;;
        mret channel_id
    end;
  send_message channel_id msg action.

(** [self.client.rtm_read()] and [self.client.rtm_connect()] *)
Definition rtm_read : SM (list RawEvent) :=
  r ← api_call ReqRtmRead;
  match body r with
  | BEvents l => mret l
  | _ => raise TransportError
  end.

Definition rtm_connect : SM LoginInfo :=
  r ← api_call ReqRtmConnect;
  match body r with
  | BLogin info => mret info
  | _ => raise TransportError
  end.

(** The second [try] block of the event loop; [Some ev] is [return ev],
    [None] falls through to the purge. *)
Definition event_message (event : RawEvent) : SM (option SlackEvent) :=
  let t := r_type event in
  let subt := r_subtype event in
  if decide (t = Some "message" ∧
             (subt = None ∨ subt = Some "" ∨ subt = Some "me_message")) then
    match load_Message event with
    | None => raise LoadError
    | Some msg =>
        (* In private chats, pretend that my own messages sent from another
           client actually come from the other user *)
        im ← get_im (m_channel msg);
        let msg :=
          match im with
          | Some im =>
              if decide (IM_user im ≠ m_user msg)
              then mkMessage (IM_id im) (IM_user im) ("I say: " +:+ m_text msg)
              else msg
          | None => msg
          end in
        if decide (subt = Some "me_message") then mret (Some (ActionMessage msg))
        else mret (Some (Msg msg))
    end
  else if decide (t = Some "message" ∧ subt = Some "slackbot_response") then
    match load_Message event with
    | None => raise LoadError
    | Some msg => mret (Some (Msg msg))
    end
  else if decide (t = Some "user_change") then
    match r_user_obj event with
    | None => raise KeyError
    | Some u =>
        (* Changes in the user, drop it from cache *)
        modify (λ s, set_usercache (delete (u_id u) (_usercache s)) s) ;;
        mret None
    end
  else mret None.

(** [self._get_members_cache[ev.channel].add(ev.user)] and [.remove]:
    neither is guarded. *)
Definition update_members (ev : option SlackEvent) : SM unit :=
  match ev with
  | Some (Join user channel) =>
      cache ← gets _get_members_cache;
      match cache !! channel with
      | None => raise KeyError
      | Some members =>
          modify (set_members_cache (<[channel := {[user]} ∪ members]> cache))
      end
  | Some (Leave user channel) =>
      cache ← gets _get_members_cache;
      match cache !! channel with
      | None => raise KeyError
      | Some members =>
          if decide (user ∈ members)
          then modify (set_members_cache (<[channel := members ∖ {[user]}]> cache))
          else raise KeyError
      end
  | _ => mret tt
  end.

(** The loop [for event in events] of [Slack.event]. *)
Fixpoint event_loop (now : Z) (events : list RawEvent) : SM (option SlackEvent) :=
  match events with
  | [] => mret None
  | event :: events =>
      let t := r_type event in
      let ts := default 0 (r_ts event) in
      modify (bump_timestamp ts) ;;
      sent ← gets _sent_by_self;
      if decide (ts ∈ sent) then
        modify (λ s, set_sent_by_self (_sent_by_self s ∖ {[ts]}) s) ;;
        event_loop now events
      else if is_useless t then event_loop now events
      else
        let ev := load_typed event in
        update_members ev ;;
        match ev with
        | Some ev => mret (Some ev)
        | None =>
            r ← try_except (event_message event) (any_exception (mret None));
            match r with
            | Some ev => mret (Some ev)
            | None => _triage_sent_by_self now ;; event_loop now events
            end
        end
  end.

(** [Slack.event].  [sleeptime] is a local of the call, as in the source;
    its value on leaving the reconnect branch is computed and dropped. *)
Definition event (fuel : nat) (now : Z) : SM (option SlackEvent) :=
  let sleeptime := 1 in
  pending ← gets _internalevents;
  match last pending with
  | Some ev =>
      modify (set_internalevents (removelast pending)) ;;
      mret (Some ev)                                      (* list.pop() *)
  | None =>
      r ← try_except
            (events ← rtm_read;
             let sleeptime := 1 in
             mret (Some events, sleeptime))
            (any_exception
               (try_except
                  (info ← rtm_connect;
                   modify (set_login_info (Some info)) ;;
                   let sleeptime := 1 in
                   _history fuel ;;
                   mret (Some [], sleeptime))
                  (any_exception
                     (sleep sleeptime ;;
                      (* max reconnection interval at 2 minutes *)
                      let sleeptime :=
                        if decide (sleeptime <= 120) then sleeptime * 2 else sleeptime in
                      mret (None, sleeptime)))));
      match r.1 with
      | Some events => event_loop now events
      | None => mret None
      end
  end.

(** ** irc.py: class [Client] *)

(** The text transformations are built on Python's [re]; they are taken
    as given.  Both only call into [self.sl_client]. *)
Variable _addmagic : string → SM string.
Variable parse_message : string → string → SM string.   (* nick, text *)
(** [diff.seddiff] *)
Variable seddiff : string → string → string.
(** [str(e)], the text of an exception, as ['%s' % e] and [f'{e}'] print
    it. *)
Variable str_exn : exn → string.

(** [Client._sendreply] *)
Definition _sendreply (code : Z) (message : string) (extratokens : list string)
    : CM unit :=
  c ← gets id;
  write (Reply (hostname c) code (nick c :: extratokens) message).

(** [self.sl_client.login_info], asserted *)
Definition get_login_info : CM LoginInfo :=
  c ← gets id;
  match login_info (sl_client c) with
  | Some info => mret info
  | None => raise AssertionError
  end.

(** [Client._nickhandler] *)
Definition _nickhandler (cmd : string) : CM unit :=
  match split_space 1 cmd with
  | [_; nick_] =>
      modify (set_nick (strip nick_)) ;;
      info ← get_login_info;
      c ← gets id;
      if decide (nick c ≠ self_name info) then
        _sendreply ERR_ERRONEUSNICKNAME ("Incorrect nickname, use " +:+ self_name info) []
      else mret tt
  | _ => raise ValueError
  end.

(** The loop of [_send_chan_info] that builds [userlist]. *)
Fixpoint collect_names (ids : list string) (userlist : list string)
    : CM (list string) :=
  match ids with
  | [] => mret userlist
  | i :: ids =>
      r ← try_except (u ← slack (get_user i); mret (Some u))
                     (any_exception (mret None));
      match r with
      | None => collect_names ids userlist
      | Some u =>
          if deleted u then
            (* Disabled user, skip it *)
            collect_names ids userlist
          else
            let prefix := if is_admin u then "@" else "" in
            collect_names ids (userlist ++ [prefix +:+ u_name u])
      end
  end.

(** [Client._send_chan_info] *)
Definition _send_chan_info (channel_name : string) (slchan : Channel) : CM unit :=
  c ← gets id;
  users ←
    (if nouserlist c then mret ""
     else
       members ← slack (get_members (ch_id slchan));
       userlist ← collect_names (elements members) [];
       mret (join_with " " userlist));
  c ← gets id;
  write (JoinLine (nick c) channel_name) ;;
  _sendreply RPL_TOPIC (real_topic slchan) [channel_name] ;;
  _sendreply RPL_NAMREPLY users ["="; channel_name] ;;
  _sendreply RPL_ENDOFNAMES "End of NAMES list" [channel_name].

(** [Client.sendmsg] *)
Definition sendmsg (from_ to message : string) : CM unit :=
  write (Privmsg from_ to message).

(** The body of the line loop of [_message]. *)
Definition send_line (source dest : string) (action : bool) (msg : string)
    : CM unit :=
  if decide (msg = "") then mret tt
  else
    c ← gets id;
    i ← slack (parse_message (nick c) msg);
    let i := if action
             then String "001" "ACTION " +:+ i +:+ String "001" ""
             else i in
    sendmsg source dest i.

(** [Client._message] *)
Definition _message (sl_ev : Outgoing) (prefix : string) : CM unit :=
  source ←
    match o_user sl_ev with
    | Some uid => u ← slack (get_user uid); mret (u_name u)
    | None => mret "bot"
    end;
  c ← gets id;
  dest ← try_except
            (ch ← slack (get_channel (o_channel sl_ev)); mret (Some ("#" +:+ ch_name ch)))
            (λ e, if decide (e = KeyError) then Some (mret (Some (nick c)))
                  else Some (mret None));
  match dest with
  | None => mret tt
  | Some dest =>
      c ← gets id;
      if decide (dest ∈ parted_channels c) then
        (* Ignoring messages, channel was left on IRC *)
        mret tt
      else
        for_each (split_all "010" (prefix +:+ o_text sl_ev))
          (send_line source dest (o_action sl_ev))
  end.

(** [Client._joined_parted] *)
Definition _joined_parted (user_id channel_id : string) (joined : bool) : CM unit :=
  user ← slack (get_user user_id);
  if deleted user then mret tt
  else
    channel ← slack (get_channel channel_id);
    let dest := "#" +:+ ch_name channel in
    c ← gets id;
    if decide (dest ∈ parted_channels c) then mret tt
    else
      let name := u_name user in
      let rname := spaces_to_underscores (real_name user) in
      if joined then write (UserJoin name rname dest)
      else write (UserPart name rname dest).

Definition of_Message (m : Message) (action : bool) : Outgoing :=
  mkOutgoing (Some (m_user m)) (m_channel m) (m_text m) action.

(** What [slack_event] does once the client has registered. *)
Definition deliver (sl_ev : SlackEvent) : CM unit :=
  match sl_ev with
  | MessageDelete channel previous =>
      _message (mkOutgoing (Some (nc_user previous)) channel (nc_text previous) false)
               "[deleted]"
  | Msg m => _message (of_Message m false) ""
  | ActionMessage m => _message (of_Message m true) ""
  | MessageEdit channel previous current =>
      if is_changed previous current then
        (* diffmsg *)
        _message (mkOutgoing (Some (nc_user current)) channel
                    (seddiff (nc_text previous) (nc_text current)) false) ""
      else mret tt
  | MessageBot text username_ channel bot_id =>
      _message (mkOutgoing None channel text false) ("[" +:+ username_ +:+ "]")
  | FileShared file_id user_id ts =>
      f ← slack (get_file file_id);
      match announce f with
      | Some m => _message (of_Message m false) ""
      | None => raise IndexError
      end
  | Join user channel => _joined_parted user channel true
  | Leave user channel => _joined_parted user channel false
  | TopicChange new_topic channel user =>
      ch ← slack (get_channel channel);
      _sendreply RPL_TOPIC new_topic ["#" +:+ ch_name ch]
  | GroupJoined channel =>
      _send_chan_info ("#" +:+ name_normalized channel) channel
  end.

(** [Client.slack_event] *)
Definition slack_event (sl_ev : SlackEvent) : CM unit :=
  c ← gets id;
  if negb (_usersent c) then
    modify (λ c, set_held_events (_held_events c ++ [sl_ev]) c)
  else deliver sl_ev.

(** The channel phase of [_userhandler]. *)
Definition autojoin_channels (now : Z) : CM unit :=
  c ← gets id;
  if autojoin c then
    let mpim_cutoff := now - MPIM_HIDE_DELAY in
    chans ← slack (channels false);
    for_each chans (λ sl_chan,
      if negb (is_member sl_chan) then mret tt
      else if is_mpim sl_chan &&
              match latest sl_chan with
              | None => true
              | Some ts => bool_decide (ts < mpim_cutoff)
              end
      then mret tt
      else _send_chan_info ("#" +:+ name_normalized sl_chan) sl_chan)
  else
    chans ← slack (channels false);
    for_each chans (λ sl_chan,
      modify (λ c, set_parted_channels
                     ({["#" +:+ name_normalized sl_chan]} ∪ parted_channels c) c)).

(** The welcome numerics of [_userhandler]. *)
Definition welcome : CM unit :=
  info ← get_login_info;
  _sendreply 1 "Welcome to localslackirc" [] ;;
  _sendreply 2 ("Your team name is: " +:+ team_name info) [] ;;
  _sendreply 2 ("Your team domain is: " +:+ team_domain info) [] ;;
  _sendreply 2 ("Your nickname must be: " +:+ self_name info) [] ;;
  _sendreply RPL_LUSERCLIENT "There are 1 users and 0 services on 1 server" [].

(** Eventual channel joining done, sending the held events *)
Definition flush_held : CM unit :=
  modify (set_usersent true) ;;
  held ← gets _held_events;
  for_each held slack_event ;;
  modify (set_held_events []).

(** [Client._userhandler] *)
Definition _userhandler (now : Z) (cmd : string) : CM unit :=
  welcome ;;
  c ← gets id;
  (if autojoin c && negb (nouserlist c) then slack prefetch_users else mret tt) ;;
  autojoin_channels now ;;
  flush_held.

(** [Client._pinghandler] *)
Definition _pinghandler (cmd : string) : CM unit :=
  match split_space 1 cmd with
  | [_; lbl] => c ← gets id; write (Pong (hostname c) lbl)
  | _ => raise ValueError
  end.

(** [Client._joinhandler] *)
Definition _joinhandler (cmd : string) : CM unit :=
  match split_space 1 cmd with
  | [_; channel_name_b] =>
      modify (λ c, if decide (channel_name_b ∈ parted_channels c)
                   then set_parted_channels (parted_channels c ∖ {[channel_name_b]}) c
                   else c) ;;
      let channel_name := drop_first channel_name_b in
      r ← try_except (ch ← slack (get_channel_by_name channel_name); mret (Some ch))
            (any_exception
               (_sendreply ERR_NOSUCHCHANNEL ("Unable to find channel: " +:+ channel_name) [] ;;
                mret None));
      match r with
      | None => mret tt                                     (* return *)
      | Some slchan =>
          (if negb (is_member slchan) then
             try_except (slack (join slchan))
               (any_exception
                  (_sendreply ERR_NOSUCHCHANNEL
                     ("Unable to join server channel: " +:+ channel_name) []))
           else mret tt) ;;
          try_except (_send_chan_info channel_name_b slchan)
            (any_exception
               (_sendreply ERR_NOSUCHCHANNEL ("Unable to join channel: " +:+ channel_name) []))
      end
  | _ => raise ValueError
  end.

(** [Client._privmsghandler] *)
Definition _privmsghandler (cmd : string) : CM unit :=
  match split_space 2 cmd with
  | [_; dest; msg] =>
      let msg := if startswith ":" msg then drop_first msg else msg in
      (* Handle sending "/me does something" *)
      let '(action, msg) :=
        if startswith (String "001" "ACTION ") msg && endswith (String "001" "") msg
        then (true, drop_last (default "" (split_space 1 msg !! 1%nat)))
        else (false, msg) in
      message ← slack (_addmagic msg);
      if startswith "#" dest then
        ch ← slack (get_channel_by_name (drop_first dest));
        slack (send_message (ch_id ch) message action)
      else
        try_except
          (u ← slack (get_user_by_name dest);
           slack (send_message_to_user (u_id u) message action))
          (any_exception (mret tt))      (* log('Impossible to find user ', dest) *)
  | _ => raise ValueError
  end.

(** [Client._listhandler] *)
Definition _listhandler (cmd : string) : CM unit :=
  chans ← slack (channels true);
  for_each chans (λ c,
    _sendreply RPL_LIST (real_topic c) ["#" +:+ ch_name c; pretty (num_members c)]) ;;
  _sendreply RPL_LISTEND "End of LIST" [].

(** [Client._modehandler] *)
Definition _modehandler (cmd : string) : CM unit :=
  match split_space 2 cmd !! 1%nat with
  | Some p1 => _sendreply RPL_CHANNELMODEIS "" [p1; "+"]
  | None => raise IndexError
  end.

(** [Client._sendfilehandler] *)
Definition _sendfilehandler (cmd : string) : CM unit :=
  let params := split_space 2 cmd in
  match params !! 1%nat, params !! 2%nat with
  | Some channel_name, Some filename =>
      r ← try_except
            (if startswith "#" channel_name then
               ch ← slack (get_channel_by_name (drop_first channel_name));
               mret (Some (ch_id ch))
             else
               u ← slack (get_user_by_name channel_name);
               mret (Some (u_id u)))
            (only KeyError
               (_sendreply ERR_NOSUCHCHANNEL
                  ("Unable to find destination: " +:+ channel_name) [] ;;
                mret None));
      match r with
      | None => mret tt
      | Some dest =>
          try_except
            (slack (send_file dest filename) ;;
             _sendreply 0 ("Upload of " +:+ filename +:+ " completed") [])
            (exception_as (λ e,
               _sendreply ERR_FILEERROR ("Unable to send file " +:+ str_exn e) []))
      end
  | _, _ => _sendreply ERR_UNKNOWNCOMMAND "Syntax: /sendreply #channel filename" []
  end.

(** [Client._parthandler] *)
Definition _parthandler (cmd : string) : CM unit :=
  match split_space 1 cmd with
  | [_; name] => modify (λ c, set_parted_channels ({[name]} ∪ parted_channels c) c)
  | _ => raise ValueError
  end.

(** [Client._awayhandler] *)
Definition _awayhandler (cmd : string) : CM unit :=
  let is_away := contains_char " " cmd in
  slack (away is_away) ;;
  let response := if is_away then RPL_NOWAWAY else RPL_UNAWAY in
  _sendreply response "Away status changed" [].

(** [Client._topichandler] *)
Definition _topichandler (cmd : string) : CM unit :=
  match split_space 2 cmd with
  | [_; channel_b; topic_b] =>
      let new_topic := drop_first topic_b in
      channel ← slack (get_channel_by_name (drop_first channel_b));
      try_except (slack (set_topic channel new_topic))
        (any_exception
           (_sendreply ERR_UNKNOWNCOMMAND ("Unable to set topic to " +:+ new_topic) []))
  | _ => raise ValueError
  end.

(** [Client._whoishandler].  [user] is bound by the [try] only; after the
    [except] branch it is still unbound and reading it raises. *)
Definition _whoishandler (cmd : string) : CM unit :=
  let users := drop 1 (split_all " " cmd) in
  (if decide ((1 < length users)%nat) then
     _sendreply ERR_UNKNOWNCOMMAND "Server parameter is not supported" []
   else mret tt : CM unit) ;;
  (* Seems that oftc only responds to the last one *)
  match last users with
  | None => raise IndexError                              (* users.pop() *)
  | Some username_ =>
      (if contains_char "*" username_ then
         _sendreply ERR_UNKNOWNCOMMAND "Wildcards are not supported" []
       else mret tt) ;;
      let uusername := username_ in
      user ← try_except
               (u ← slack (get_user_by_name uusername); mret (Some u))
               (only KeyError
                  (_sendreply ERR_NOSUCHNICK ("Unknown user " +:+ uusername) [] ;;
                   mret None));
      match user with
      | None => raise UnboundLocalError                   (* user.real_name *)
      | Some user =>
          _sendreply RPL_WHOISUSER (real_name user) [username_; ""; "localhost"] ;;
          (match email (profile user) with
           | Some e =>
               if decide (e = "") then mret tt
               else _sendreply RPL_WHOISUSER ("email: " +:+ e) [username_; ""; "localhost"]
           | None => mret tt
           end : CM unit) ;;
          (if is_admin user then
             _sendreply RPL_WHOISOPERATOR (uusername +:+ " is an IRC operator") [username_]
           else mret tt) ;;
          _sendreply RPL_ENDOFWHOIS "" [username_]
      end
  end.

(** [Client._kickhandler] *)
Definition _kickhandler (cmd : string) : CM unit :=
  match split_space 3 cmd with
  | [_; channel_b; username_; message] =>
      channel ← slack (get_channel_by_name (drop_first channel_b));
      user ← slack (get_user_by_name username_);
      try_except (slack (kick channel user))
        (exception_as (λ e,
           _sendreply ERR_UNKNOWNCOMMAND ("Error: " +:+ str_exn e) []))
  | _ => raise ValueError
  end.

(** [Client._quithandler] *)
Definition _quithandler (cmd : string) : CM unit := raise IrcDisconnectError.

(** [Client._userhosthandler] *)
Definition _userhosthandler (cmd : string) : CM unit :=
  let nicknames := drop 1 (split_all " " cmd) in
  _sendreply RPL_USERHOST "" ((λ i, i +:+ "=+unknown") <$> nicknames).

(** [Client._invitehandler] *)
Definition _invitehandler (cmd : string) : CM unit :=
  match split_space 2 cmd with
  | [_; username_; channel_b] =>
      channel ← slack (get_channel_by_name (drop_first channel_b));
      user ← slack (get_user_by_name username_);
      try_except (slack (invite channel user))
        (exception_as (λ e,
           _sendreply ERR_UNKNOWNCOMMAND ("Error: " +:+ str_exn e) []))
  | _ => raise ValueError
  end.

(** One row of [_whohandler]. *)
Definition who_reply (name : string) (user : User) : CM unit :=
  c ← gets id;
  _sendreply RPL_WHOREPLY ("0 " +:+ real_name user)
    [name; u_name user; "127.0.0.1"; hostname c; u_name user; "H"].

(** [Client._whohandler] *)
Definition _whohandler (cmd : string) : CM unit :=
  match split_space 1 cmd with
  | [_; name] =>
      if negb (startswith "#" name) then
        r ← try_except (u ← slack (get_user_by_name name); mret (Some u))
              (only KeyError (mret None));
        match r with
        | None => mret tt
        | Some user => who_reply name user
        end
      else
        r ← try_except
              (ch ← slack (get_channel_by_name (drop_first name)); mret (Some ch))
              (only KeyError (mret None));
        match r with
        | None => mret tt
        | Some channel =>
            members ← slack (get_members (ch_id channel));
            for_each (elements members) (λ i,
              try_except (user ← slack (get_user i); who_reply name user)
                (any_exception (mret tt))) ;;
            _sendreply RPL_ENDOFWHO "End of WHO list" [name]
        end
  | _ => raise ValueError
  end.

(** [Client.command]: the dispatch table. *)
Definition command (now : Z) (cmd : string) : CM unit :=
  let cmdid := default cmd (head (split_space 1 cmd)) in
  if decide (cmdid = "NICK") then _nickhandler cmd
  else if decide (cmdid = "USER") then _userhandler now cmd
  else if decide (cmdid = "PING") then _pinghandler cmd
  else if decide (cmdid = "JOIN") then _joinhandler cmd
  else if decide (cmdid = "PRIVMSG") then _privmsghandler cmd
  else if decide (cmdid = "LIST") then _listhandler cmd
  else if decide (cmdid = "WHO") then _whohandler cmd
  else if decide (cmdid = "MODE") then _modehandler cmd
  else if decide (cmdid = "PART") then _parthandler cmd
  else if decide (cmdid = "AWAY") then _awayhandler cmd
  else if decide (cmdid = "TOPIC") then _topichandler cmd
  else if decide (cmdid = "KICK") then _kickhandler cmd
  else if decide (cmdid = "INVITE") then _invitehandler cmd
  else if decide (cmdid = "sendfile") then _sendfilehandler cmd
  else if decide (cmdid = "QUIT") then _quithandler cmd
  else if decide (cmdid = "USERHOST") then _userhosthandler cmd
  else if decide (cmdid = "whois") then _whoishandler cmd
  else _sendreply ERR_UNKNOWNCOMMAND "Unknown command" [cmdid].

(** [from_irc] over the lines the client sends, each already read; the
    command is handled outside the [try] that guards [readline]. *)
Definition from_irc (now : Z) (lines : list string) : CM unit :=
  for_each lines (λ cmd, command now (strip cmd)).

(** One turn of the loop of [to_irc]. *)
Definition to_irc_step (fuel : nat) (now : Z) : CM unit :=
  ev ← slack (event fuel now);
  match ev with
  | Some ev => slack_event ev
  | None => mret tt
  end.

(** [n] successive calls of [Slack.event], as [to_irc] makes them. *)
Fixpoint events_n (fuel : nat) (now : Z) (n : nat) : SM (list (option SlackEvent)) :=
  match n with
  | O => mret []
  | S n => ev ← event fuel now; evs ← events_n fuel now n; mret (ev :: evs)
  end.

(** * Properties *)

(** Drop the section variables a statement does not mention. *)
Ltac tidy :=
  try clear str_exn; try clear seddiff; try clear parse_message;
  try clear _addmagic; try clear readable.

Ltac munfold :=
  unfold mbind, M_bind, mret, M_ret, gets, modify, raise, timeout, check_ok.

(** ** Queueing of internal events *)

Lemma for_each_push {A} (f : A → SlackEvent) (l : list A) (s : Slack) :
  for_each l (λ i, push_event (f i)) s
  = (Ok tt, set_internalevents (_internalevents s ++ (f <$> l)) s).
Proof.
  revert s. induction l as [|x l IH]; intros s; simpl.
  - rewrite app_nil_r. by destruct s.
  - munfold. unfold push_event at 1. munfold. rewrite IH. simpl.
    by rewrite <- app_assoc.
Qed.

(** ** Membership pagination ([get_members]) *)

Lemma cursor_kwarg_live (cursor : option string) :
  cursor ≠ Some "" → cursor_kwarg cursor = cursor.
Proof.
  destruct cursor as [c|]; simpl; [|done].
  intros H. by destruct (decide (c = "")) as [->|].
Qed.

(** C5 (as the code has it).  A membership fetch on a channel whose stored
    cursor is the exhausted sentinel (the empty string) returns the cached
    set, issues no request and changes nothing.  Otherwise it issues one
    request carrying the stored cursor (none when absent, which asks for
    the first page); on an ok reply it returns the union of the cached set
    and the returned ids, stores that union and the returned cursor, and
    queues one join event per returned id not yet cached exactly when the
    channel already has a cache entry, that is on every fetch after the
    first successful one, whatever page is asked for; only the fetch of a
    channel without cache entry queues nothing whatever it returns. *)
Theorem get_members_pagination (id_ : string) (s : Slack) :
  let cached := default ∅ (_get_members_cache s !! id_) in
  let cursor := mjoin (_get_members_cache_cursor s !! id_) in
  (cursor = Some "" → get_members id_ s = (Ok cached, s)) ∧
  (cursor ≠ Some "" → ∀ members next_cursor,
     remote (length (calls s)) (ReqMembers id_ cursor)
       = Some (mkResp true (BMembers members next_cursor)) →
     let newusers : gset string := list_to_set members in
     let joins := if decide (id_ ∈ dom (_get_members_cache s))
                  then (λ i, Join i id_) <$> elements (newusers ∖ cached) else [] in
     get_members id_ s =
       (Ok (cached ∪ newusers),
        set_members_cursor (<[id_ := next_cursor]> (_get_members_cache_cursor s))
          (set_members_cache (<[id_ := cached ∪ newusers]> (_get_members_cache s))
             (set_internalevents (_internalevents s ++ joins)
                (set_calls (calls s ++ [ReqMembers id_ cursor]) s)))) ∧
     (_get_members_cache s !! id_ = None → joins = []) ∧
     (∀ i, Join i id_ ∈ joins ↔
           is_Some (_get_members_cache s !! id_) ∧ i ∈ members ∧ i ∉ cached)).
Proof.
  tidy.
  intros cached cursor. split.
  - intros Hc. unfold get_members. munfold. simpl. fold cursor. rewrite Hc.
    by rewrite decide_True.
  - intros Hc members next Hr newusers joins. split; [|split].
    + unfold get_members. munfold. simpl. fold cursor cached.
      rewrite decide_False by done.
      unfold api_call. rewrite cursor_kwarg_live by done. rewrite Hr. simpl.
      subst joins. fold newusers.
      destruct (decide (id_ ∈ dom (_get_members_cache s))) as [Hin|Hin].
      * rewrite bool_decide_eq_true_2 by done.
        rewrite for_each_push. simpl. by rewrite lookup_insert_eq.
      * rewrite bool_decide_eq_false_2 by done. simpl.
        rewrite lookup_insert_eq. simpl. by rewrite app_nil_r.
    + intros Hn. subst joins. rewrite decide_False; [done|].
      rewrite elem_of_dom, Hn. by intros [? ?].
    + intros i. subst joins. rewrite <- elem_of_dom.
      destruct (decide (id_ ∈ dom (_get_members_cache s))) as [Hin|Hin].
      * rewrite list_elem_of_fmap. split.
        -- intros (j & Hj & Hel). apply elem_of_elements in Hel.
           assert (i = j) as -> by congruence.
           subst newusers. set_solver.
        -- intros (_ & Hm & Hc'). exists i. split; [done|].
           apply elem_of_elements. subst newusers. set_solver.
      * split; [by intros ?%elem_of_nil | tauto].
Qed.

(** Live join and leave events update an existing cache entry or fail;
    they never create one.  A channel therefore has a cache entry exactly
    when a fetch for it has succeeded before. *)
Lemma update_members_dom (ev : option SlackEvent) (s : Slack) :
  dom (_get_members_cache (update_members ev s).2) = dom (_get_members_cache s).
Proof.
  tidy. unfold update_members. munfold.
  destruct ev as [[]|]; simpl; try done.
  - destruct (_get_members_cache s !! channel) eqn:Hc; simpl; [|done].
    rewrite dom_insert_L. apply elem_of_dom_2 in Hc. set_solver.
  - destruct (_get_members_cache s !! channel) eqn:Hc; simpl; [|done].
    case_decide; simpl; [|done].
    rewrite dom_insert_L. apply elem_of_dom_2 in Hc. set_solver.
Qed.

(** ** Reconnection ([event]) *)

(** One call of [event] when both the read and the reconnect fail. *)
Lemma event_failed_connect (fuel : nat) (now : Z) (s : Slack) :
  _internalevents s = [] →
  remote (length (calls s)) ReqRtmRead = None →
  remote (S (length (calls s))) ReqRtmConnect = None →
  event fuel now s =
    (Ok None, set_slept (slept s ++ [1])
                (set_calls (calls s ++ [ReqRtmRead; ReqRtmConnect]) s)).
Proof.
  intros Hq Hr Hc. unfold event. munfold. simpl. rewrite Hq. simpl.
  unfold try_except, rtm_read, rtm_connect, api_call, any_exception, sleep.
  munfold. simpl. rewrite Hr. simpl. rewrite length_app. simpl.
  replace (length (calls s) + 1)%nat with (S (length (calls s))) by lia.
  rewrite Hc. simpl. by rewrite <- app_assoc.
Qed.

(** C4.  While the transport keeps failing, every call of [event] sleeps
    for the same delay 1: after [n] consecutive failures the delays slept
    are [n] ones, not 1, 2, 4, ...  The doubling is applied to a local of
    the call that is reset to 1 on entry. *)
Theorem backoff_delay_constant (fuel : nat) (now : Z) (n : nat) (s : Slack) :
  _internalevents s = [] →
  (∀ k, remote k ReqRtmRead = None ∧ remote k ReqRtmConnect = None) →
  let r := events_n fuel now n s in
  r.1 = Ok (replicate n None) ∧ slept r.2 = slept s ++ replicate n 1.
Proof.
  intros Hq Hdown. revert s Hq. induction n as [|n IH]; intros s Hq; simpl.
  - by rewrite app_nil_r.
  - munfold. rewrite event_failed_connect by (done || apply Hdown).
    specialize (IH (set_slept (slept s ++ [1])
                      (set_calls (calls s ++ [ReqRtmRead; ReqRtmConnect]) s)) Hq).
    simpl in IH. destruct IH as [IH1 IH2].
    destruct (events_n _ _ _ _) as [[l| |] s']; simpl in *; try done.
    injection IH1 as ->. split; [done|].
    rewrite IH2. by rewrite <- app_assoc.
Qed.

(** ** WHOIS *)

Ltac cunfold :=
  unfold slack, lift, try_except, any_exception, only, exception_as, _sendreply,
    write, sendmsg.

(** C2.  A WHOIS whose single nick is not in the name cache writes the
    no-such-nick numeric and then fails with [UnboundLocalError] on
    [user.real_name]: nothing else is written, in particular no
    end-of-whois marker. *)
Theorem whois_unresolved_no_end_marker (cmd username_ : string) (c : Client) :
  drop 1 (split_all " " cmd) = [username_] →
  contains_char "*" username_ = false →
  _usermapcache (sl_client c) !! username_ = None →
  _whoishandler cmd c =
    (Raise UnboundLocalError,
     set_written (written c ++
       [Reply (hostname c) ERR_NOSUCHNICK [nick c] ("Unknown user " +:+ username_)]) c).
Proof.
  intros Hargs Hstar Hmiss. unfold _whoishandler. rewrite Hargs. simpl.
  rewrite Hstar. munfold. cunfold. unfold get_user_by_name. munfold. simpl.
  rewrite Hmiss. simpl. by destruct c.
Qed.

(** ** JOIN *)





(** ** Registration: the channel phase of USER *)

Lemma set_sl_client_idem (s1 s2 : Slack) (c : Client) :
  set_sl_client s2 (set_sl_client s1 c) = set_sl_client s2 c.
Proof. done. Qed.







(** ** The held-event queue *)

Create HintDb quiet.

Lemma quiet_ret {A} (a : A) : Quiet (mret a).
Proof. by intros c. Qed.

Lemma quiet_raise {A} (e : exn) : Quiet (raise e : CM A).
Proof. by intros c. Qed.

Lemma quiet_gets {A} (f : Client → A) : Quiet (gets f).
Proof. by intros c. Qed.

Lemma quiet_bind {A B} (m : CM A) (f : A → CM B) :
  Quiet m → (∀ a, Quiet (f a)) → Quiet (m ≫= f).
Proof.
  intros Hm Hf c. unfold mbind, M_bind. specialize (Hm c).
  destruct (m c) as [[a| |] c1]; simpl in *; try done.
  destruct (Hf a c1) as [-> ->]. done.
Qed.

Lemma quiet_try {A} (body : CM A) (h : exn → option (CM A)) :
  Quiet body → (∀ e k, h e = Some k → Quiet k) → Quiet (try_except body h).
Proof.
  intros Hb Hh c. unfold try_except. specialize (Hb c).
  destruct (body c) as [[a|e|] c1]; simpl in *; try done.
  destruct (h e) as [k|] eqn:Hk; simpl; [|done].
  destruct (Hh e k Hk c1) as [-> ->]. done.
Qed.

Lemma quiet_try_any {A} (body k : CM A) :
  Quiet body → Quiet k → Quiet (try_except body (any_exception k)).
Proof. intros Hb Hk. apply quiet_try; [done|]. by intros e k' [= <-]. Qed.

Lemma quiet_try_as {A} (body : CM A) (k : exn → CM A) :
  Quiet body → (∀ e, Quiet (k e)) → Quiet (try_except body (exception_as k)).
Proof. intros Hb Hk. apply quiet_try; [done|]. by intros e k' [= <-]. Qed.

Lemma quiet_try_only {A} (body k : CM A) (e0 : exn) :
  Quiet body → Quiet k → Quiet (try_except body (only e0 k)).
Proof.
  intros Hb Hk. apply quiet_try; [done|]. unfold only. intros e k'.
  by case_decide; intros [= <-].
Qed.

Lemma quiet_for_each {A} (l : list A) (body : A → CM unit) :
  (∀ x, Quiet (body x)) → Quiet (for_each l body).
Proof.
  intros Hb. induction l as [|x l IH]; simpl.
  - apply quiet_ret.
  - apply quiet_bind; [apply Hb | by intros _].
Qed.

Lemma quiet_slack {A} (m : SM A) : Quiet (slack m).
Proof. intros c. unfold slack, lift. by destruct (m (sl_client c)). Qed.

Lemma quiet_modify (f : Client → Client) :
  (∀ c, _usersent (f c) = _usersent c ∧ _held_events (f c) = _held_events c) →
  Quiet (modify f).
Proof. intros Hf c. apply Hf. Qed.

Lemma quiet_write (l : Line) : Quiet (write l).
Proof. by apply quiet_modify. Qed.

Lemma quiet_sendreply (code : Z) (message : string) (extratokens : list string) :
  Quiet (_sendreply code message extratokens).
Proof.
  unfold _sendreply. apply quiet_bind; [apply quiet_gets|]. intros c.
  apply quiet_write.
Qed.

#[local] Hint Resolve quiet_ret quiet_raise quiet_gets quiet_slack quiet_write
  quiet_sendreply : quiet.

(** Structural steps of a proof of [Quiet]. *)
Ltac quiet_step :=
  match goal with
  | |- Quiet (mret _) => apply quiet_ret
  | |- Quiet (raise _) => apply quiet_raise
  | |- Quiet (gets _) => apply quiet_gets
  | |- Quiet (slack _) => apply quiet_slack
  | |- Quiet (write _) => apply quiet_write
  | |- Quiet (sendmsg _ _ _) => apply quiet_write
  | |- Quiet (_sendreply _ _ _) => apply quiet_sendreply
  | |- Quiet (_ ≫= _) => apply quiet_bind; [|intros ?]
  | |- Quiet (for_each _ _) => apply quiet_for_each; intros ?
  | |- Quiet (try_except _ (any_exception _)) => apply quiet_try_any
  | |- Quiet (try_except _ (exception_as _)) => apply quiet_try_as; [|intros ?]
  | |- Quiet (try_except _ (only _ _)) => apply quiet_try_only
  | |- Quiet (modify _) =>
      apply quiet_modify; intros ?; try case_decide; done
  | |- Quiet (if ?b then _ else _) => destruct b
  | |- Quiet (match ?x with _ => _ end) => destruct x
  | |- Quiet _ => progress simpl
  | |- Quiet _ => solve [eauto with quiet]
  end.
Ltac quiet := repeat quiet_step.

Lemma quiet_collect_names (ids userlist : list string) :
  Quiet (collect_names ids userlist).
Proof. revert userlist. induction ids as [|i ids IH]; intros userlist; simpl; quiet. Qed.
#[local] Hint Resolve quiet_collect_names : quiet.

Lemma quiet_send_chan_info (channel_name : string) (slchan : Channel) :
  Quiet (_send_chan_info channel_name slchan).
Proof. unfold _send_chan_info. quiet. Qed.
#[local] Hint Resolve quiet_send_chan_info : quiet.

Lemma quiet_send_line (source dest : string) (action : bool) (msg : string) :
  Quiet (send_line source dest action msg).
Proof. unfold send_line. quiet. Qed.
#[local] Hint Resolve quiet_send_line : quiet.

Lemma quiet_message (sl_ev : Outgoing) (prefix : string) :
  Quiet (_message sl_ev prefix).
Proof.
  unfold _message. quiet.
  apply quiet_try; [quiet|]. intros e k. case_decide; intros [= <-]; quiet.
Qed.
#[local] Hint Resolve quiet_message : quiet.

Lemma quiet_joined_parted (user_id channel_id : string) (joined : bool) :
  Quiet (_joined_parted user_id channel_id joined).
Proof. unfold _joined_parted. quiet. Qed.
#[local] Hint Resolve quiet_joined_parted : quiet.


Lemma quiet_who_reply (name : string) (user : User) : Quiet (who_reply name user).
Proof. unfold who_reply. quiet. Qed.
#[local] Hint Resolve quiet_who_reply : quiet.












(** ** Messages of unresolved channels *)


(** The line loop of [_message]: one PRIVMSG per non-empty line. *)
Lemma message_lines (source dest : string) (action : bool) (lines : list string)
    (c : Client) :
  (∀ n t s, ∃ t', (parse_message n t s).1 = Ok t') →
  ∃ c' texts,
    for_each lines (send_line source dest action) c = (Ok tt, c') ∧
    written c' = written c ++ (Privmsg source dest <$> texts) ∧
    nick c' = nick c ∧
    Forall2 (λ line text, ∃ s t, (parse_message (nick c) line s).1 = Ok t ∧
                                 text = wrap_action action t)
            (filter (λ l, l ≠ "") lines) texts.
Proof.
  intros Htotal. revert c. induction lines as [|line lines IH]; intros c.
  - exists c, []. simpl. rewrite app_nil_r. repeat split; constructor.
  - simpl. rewrite filter_cons. unfold mbind, M_bind.
    destruct (decide (line = "")) as [->|Hne].
    + rewrite decide_False by (intros H; by apply H).
      destruct (IH c) as (c' & texts & Hrun & Hw & Hn & Hall).
      exists c', texts. unfold send_line at 1. simpl. by rewrite Hrun.
    + rewrite decide_True by done.
      unfold send_line at 1. rewrite decide_False by done.
      munfold. cunfold. simpl.
      destruct (Htotal (nick c) line (sl_client c)) as [t Ht].
      destruct (parse_message (nick c) line (sl_client c)) as [r s1] eqn:Hp.
      simpl in Ht. subst r. simpl.
      match goal with
      | |- context [for_each lines _ ?c1] =>
          destruct (IH c1) as (c' & texts & Hrun & Hw & Hn & Hall)
      end.
      exists c', (wrap_action action t :: texts).
      rewrite Hrun. simpl in *.
      split; [done|]. split; [by rewrite Hw, <- app_assoc|]. split; [done|].
      constructor; [|done]. exists (sl_client c), t. by rewrite Hp.
Qed.


(** ** Self-echo suppression *)













Lemma bump_timestamp_sent (ts : Z) (s : Slack) :
  _sent_by_self (bump_timestamp ts s) = _sent_by_self s.
Proof. unfold bump_timestamp. by case_decide. Qed.






(** [_triage_sent_by_self] is the purge. *)
Lemma triage_is_purge (now : Z) (s : Slack) :
  _triage_sent_by_self now s
  = (Ok tt, set_sent_by_self (sent_op (Purge now) (_sent_by_self s)) s).
Proof. done. Qed.





(** A successful [send_message] adds one non-zero timestamp. *)
Lemma send_message_sent (channel_id msg : string) (action : bool) (s s' : Slack) :
  send_message channel_id msg action s = (Ok tt, s') →
  ∃ ts, ts ≠ 0 ∧ _sent_by_self s' = sent_op (Sent ts) (_sent_by_self s).
Proof.
  unfold send_message, api_call. munfold.
  destruct (remote _ _) as [r|]; simpl; [|done].
  destruct (ok r); [|done]. destruct (body r) as [| | | | | | | | | |[ts|]|]; try done.
  case_decide; [done|]. intros [= <-]. by exists ts.
Qed.


(** ** Order of delivery of queued events *)

(** [event] hands out the queue from its tail, without any remote call. *)
Lemma drain_queue (fuel : nat) (now : Z) (l : list SlackEvent) (s : Slack) :
  _internalevents s = l →
  events_n fuel now (length l) s
  = (Ok (Some <$> rev l), set_internalevents [] s).
Proof.
  revert s. induction l as [|x l IH] using rev_ind; intros s Hq.
  - simpl. munfold. destruct s; simpl in *. by subst.
  - rewrite length_app, Nat.add_1_r. simpl. munfold.
    unfold event. munfold. simpl. rewrite Hq, last_snoc, removelast_last. simpl.
    rewrite (IH (set_internalevents l s)) by done. simpl.
    by rewrite rev_unit.
Qed.

Lemma announce_added (channel_id : string) (f : File) :
  is_Some (announce (file_add_channel channel_id f)).
Proof.
  unfold announce, file_add_channel. simpl.
  rewrite <- !app_assoc. simpl.
  destruct (last _) eqn:Hl; [done|].
  apply last_None in Hl. by destruct (f_channels f).
Qed.

(** The loop over the files of a history entry never fails. *)
Lemma history_files (channel_id : string) (fs : list File) (s : Slack) :
  for_each fs (λ f,
      match announce (file_add_channel channel_id f) with
      | Some ev => push_event (Msg ev)
      | None => raise IndexError
      end) s
  = (Ok tt, set_internalevents (_internalevents s ++ file_events channel_id fs) s).
Proof.
  revert s. induction fs as [|f fs IH]; intros s; simpl.
  - rewrite app_nil_r. by destruct s.
  - unfold file_events. simpl.
    destruct (announce_added channel_id f) as [m Hm]. rewrite Hm. simpl.
    munfold. unfold push_event at 1. munfold. rewrite IH. simpl.
    by rewrite <- app_assoc.
Qed.

(** A run of entries that open no thread is queued in page order, with no
    remote call. *)
Lemma history_plain (k : nat) (channel_id : string) (last_ts : Z)
    (pre rest : list HistMsg) (s : Slack) :
  Forall (λ m, opens_thread m = false) pre →
  ∃ s1,
    history_msgs (length pre + k) channel_id last_ts (pre ++ rest) s
    = history_msgs k channel_id last_ts rest s1 ∧
    _internalevents s1
    = _internalevents s ++ flat_map (entry_events channel_id last_ts) pre ∧
    calls s1 = calls s.
Proof.
  intros Hpre. revert s. induction Hpre as [|m pre Hm Hpre IH]; intros s.
  - exists s. by rewrite app_nil_r.
  - simpl. unfold entry_events.
    destruct (decide (h_ts m = last_ts)) as [Heq|Hne].
    + destruct (IH s) as (s1 & Hrun & Hq & Hc). exists s1. by rewrite Hrun.
    + munfold. simpl. rewrite history_files. simpl. rewrite Hm.
      unfold push_event. munfold. simpl.
      match goal with
      | |- context [history_msgs _ _ _ (pre ++ rest) ?s0] =>
          destruct (IH s0) as (s1 & Hrun & Hq & Hc)
      end.
      exists s1. rewrite Hrun. split; [done|]. split.
      * rewrite Hq. simpl. case_decide; simpl; rewrite <- !app_assoc; reflexivity.
      * rewrite Hc. simpl. clear. by case_decide.
Qed.

Lemma rev_flat_map {A B} (f : A → list B) (l : list A) :
  rev (flat_map f l) = flat_map (λ x, rev (f x)) (rev l).
Proof.
  induction l as [|x l IH]; [done|]. simpl.
  rewrite rev_app_distr, IH, flat_map_app. simpl. by rewrite app_nil_r.
Qed.

(** One step of the message loop at a thread opener. *)
Lemma history_msgs_opener (fuel : nat) (channel_id : string) (last_ts : Z)
    (root : HistMsg) (rest : list HistMsg) (s : Slack) :
  opens_thread root = true →
  h_ts root ≠ last_ts →
  let s1 := if decide (last_timestamp (_status s) < h_ts root)
            then set_last_timestamp (h_ts root) s else s in
  history_msgs (S fuel) channel_id last_ts (root :: rest) s
  = (l ← _thread_history fuel channel_id (h_ts root);
     history_msgs fuel channel_id last_ts (rev l ++ rest))
      (set_internalevents
         (_internalevents s1 ++ file_events channel_id (h_files root)) s1).
Proof.
  intros Hopen Hne s1. simpl. rewrite decide_False by done.
  unfold mbind at 1 2, M_bind at 1 2. unfold modify at 1.
  rewrite history_files. by rewrite Hopen.
Qed.

(** A reply fetch answered in one page. *)
Lemma thread_history_once (fuel : nat) (channel_id : string) (thread_id : Z)
    (r0 : HistMsg) (rest : list HistMsg) (s : Slack) :
  remote (length (calls s)) (ReqReplies channel_id thread_id None)
    = Some (mkResp true (BHistory (r0 :: rest) false None)) →
  _thread_history (S fuel) channel_id thread_id s
  = (Ok (clear_thread r0 :: rest),
     set_calls (calls s ++ [ReqReplies channel_id thread_id None]) s).
Proof.
  intros Hr. unfold _thread_history. simpl. munfold. unfold api_call.
  by rewrite Hr.
Qed.

(** The thread splice: how one page with a thread opener is queued. *)
Lemma history_splice (fuel : nat) (channel_id : string) (last_ts : Z)
    (pre post replies : list HistMsg) (root root' : HistMsg) (s : Slack) :
  Forall (λ m, opens_thread m = false) (pre ++ replies ++ post) →
  opens_thread root = true →
  h_ts root ≠ last_ts →
  remote (length (calls s)) (ReqReplies channel_id (h_ts root) None)
    = Some (mkResp true (BHistory (root' :: replies) false None)) →
  (length pre + length replies + length post + 3 ≤ fuel)%nat →
  ∃ s',
    history_msgs fuel channel_id last_ts (pre ++ root :: post) s = (Ok tt, s') ∧
    _internalevents s'
    = _internalevents s ++
      flat_map (entry_events channel_id last_ts) pre ++
      file_events channel_id (h_files root) ++
      flat_map (entry_events channel_id last_ts) (rev replies) ++
      entry_events channel_id last_ts (clear_thread root') ++
      flat_map (entry_events channel_id last_ts) post.
Proof.
  intros Hplain Hopen Hne Hreply Hfuel.
  apply Forall_app in Hplain as [Hpre Hplain].
  apply Forall_app in Hplain as [Hreplies Hpost].
  set (tail := rev replies ++ clear_thread root' :: post).
  assert (Forall (λ m, opens_thread m = false) tail) as Htail.
  { unfold tail. apply Forall_app. split; [by apply Forall_rev|].
    constructor; [done|done]. }
  assert (length tail = (length replies + length post + 1)%nat) as Hlen.
  { unfold tail. rewrite length_app, length_rev. simpl. lia. }
  destruct (history_plain (fuel - length pre) channel_id last_ts pre (root :: post) s Hpre)
    as (s1 & Hrun1 & Hq1 & Hc1).
  replace (length pre + (fuel - length pre))%nat with fuel in Hrun1 by lia.
  rewrite Hrun1.
  destruct (fuel - length pre)%nat as [|k] eqn:Hk; [lia|].
  destruct k as [|k]; [lia|].
  rewrite history_msgs_opener by done.
  set (s2 := set_internalevents _ _).
  assert (calls s2 = calls s) as Hc2.
  { unfold s2. simpl. rewrite <- Hc1. by case_decide. }
  assert (_internalevents s2
          = _internalevents s1 ++ file_events channel_id (h_files root)) as Hq2.
  { unfold s2. simpl. by case_decide. }
  clearbody s2. unfold mbind, M_bind.
  rewrite (thread_history_once k channel_id (h_ts root) root' replies s2)
    by (by rewrite Hc2).
  destruct (history_plain (S (k - length tail)) channel_id last_ts tail []
              (set_calls (calls s2 ++ [ReqReplies channel_id (h_ts root) None]) s2) Htail)
    as (s3 & Hrun3 & Hq3 & Hc3).
  replace (length tail + S (k - length tail))%nat with (S k) in Hrun3 by lia.
  rewrite app_nil_r in Hrun3.
  exists s3. split.
  - change (rev (clear_thread root' :: replies) ++ post)
      with ((rev replies ++ [clear_thread root']) ++ post).
    rewrite <- app_assoc. simpl ((_ :: _) ++ _). fold tail. by rewrite Hrun3.
  - rewrite Hq3. simpl. rewrite Hq2, Hq1. unfold tail.
    rewrite flat_map_app. simpl. by rewrite <- !app_assoc.
Qed.

(** C1 (as the code has it).  Queued events are handed out from the tail
    of the queue: [event] returns them in the reverse of the order in which
    they were queued, before it reads anything from the remote.  For a
    history page that holds a thread opener, the events are therefore
    delivered as follows: first those of the entries listed after the
    opener in the page, last entry first; then the opener as it comes back
    from the reply fetch; then the replies in reply order; and only then
    those of the entries listed before the opener.  With a page listed
    newest first, every reply is thus delivered before any later message
    of the channel. *)
Theorem queued_events_order (fuel : nat) (now : Z) (channel_id : string)
    (last_ts : Z) (pre post replies : list HistMsg) (root root' : HistMsg)
    (s : Slack) :
  (∀ s0, events_n fuel now (length (_internalevents s0)) s0
         = (Ok (Some <$> rev (_internalevents s0)), set_internalevents [] s0)) ∧
  (Forall (λ m, opens_thread m = false) (pre ++ replies ++ post) →
   opens_thread root = true →
   h_ts root ≠ last_ts →
   remote (length (calls s)) (ReqReplies channel_id (h_ts root) None)
     = Some (mkResp true (BHistory (root' :: replies) false None)) →
   (length pre + length replies + length post + 3 ≤ fuel)%nat →
   ∃ s',
     history_msgs fuel channel_id last_ts (pre ++ root :: post) s = (Ok tt, s') ∧
     rev (_internalevents s')
     = flat_map (delivery_of channel_id last_ts) (rev post) ++
       delivery_of channel_id last_ts (clear_thread root') ++
       flat_map (delivery_of channel_id last_ts) replies ++
       rev (file_events channel_id (h_files root)) ++
       flat_map (delivery_of channel_id last_ts) (rev pre) ++
       rev (_internalevents s)).
Proof.
  split.
  - intros s0. by apply drain_queue.
  - intros Hplain Hopen Hne Hreply Hfuel.
    destruct (history_splice fuel channel_id last_ts pre post replies root root' s
                Hplain Hopen Hne Hreply Hfuel) as (s' & Hrun & Hq).
    exists s'. split; [done|]. rewrite Hq.
    rewrite !rev_app_distr, !rev_flat_map, rev_involutive.
    unfold delivery_of. by rewrite <- !app_assoc.
Qed.

(** * Further properties of the code *)

(** ** Byte strings and topics *)

Lemma contains_char_app (c : ascii) (a b : string) :
  contains_char c (a +:+ b) = contains_char c a || contains_char c b.
Proof.
  induction a as [|x a IH]; simpl; [done|]. rewrite IH. by rewrite orb_assoc.
Qed.

Lemma replace_newlines_flat (s : string) :
  contains_char "010" (replace_newlines s) = false.
Proof.
  induction s as [|c s IH]; simpl; [done|].
  destruct (Ascii.eqb c "010") eqn:Hc; simpl; [done|].
  by rewrite Hc.
Qed.

(** X1.  The topic handed to the client never contains a newline, whatever
    the topic and the purpose of the channel are. *)
Theorem real_topic_single_line (c : Channel) :
  contains_char "010" (real_topic c) = false.
Proof. unfold real_topic. apply replace_newlines_flat. Qed.

Lemma split_char_nonempty (sep : ascii) (n : nat) (s : string) :
  split_char sep n s ≠ [].
Proof.
  revert n. induction s as [|c s IH]; intros n; simpl; [done|].
  destruct (Ascii.eqb c sep); [by destruct n|].
  by destruct (split_char sep n s).
Qed.

(** X2.  Splitting a line at a separator and joining the fields with it
    gives the line back, for every bound on the number of splits; the
    split yields at least one field and at most one more than the bound,
    and a line without the separator is its own single field. *)
Theorem split_join_round_trip (sep : ascii) (n : nat) (s : string) :
  join_with (String sep "") (split_char sep n s) = s ∧
  (1 ≤ length (split_char sep n s) ≤ S n)%nat ∧
  (contains_char sep s = false → split_char sep n s = [s]).
Proof.
  revert n. induction s as [|c s IH]; intros n.
  - simpl. split; [done|]. split; [lia|done].
  - simpl. destruct (Ascii.eqb c sep) eqn:Hc.
    + apply Ascii.eqb_eq in Hc as ->. destruct n as [|n].
      * simpl. split; [done|]. split; [lia|done].
      * destruct (IH n) as (Hjoin & Hlen & _).
        pose proof (split_char_nonempty sep n s) as Hne.
        destruct (split_char sep n s) as [|w ws] eqn:Hs; [done|].
        split; [|split; [simpl in *; lia|done]].
        change (join_with (String sep "") ("" :: w :: ws))
          with (String sep (join_with (String sep "") (w :: ws))).
        by rewrite Hjoin.
    + destruct (IH n) as (Hjoin & Hlen & Hplain).
      pose proof (split_char_nonempty sep n s) as Hne.
      destruct (split_char sep n s) as [|w ws] eqn:Hs; [done|].
      split; [|split; [simpl in *; lia|]].
      * destruct ws as [|w' ws]; simpl in *; by rewrite <- Hjoin.
      * simpl. intros Hno. specialize (Hplain Hno). by injection Hplain as -> ->.
Qed.

(** X3.  A file attached to a history entry is always announced; it is
    announced in the last conversation the file itself lists among its
    groups and direct conversations, and in the channel being backfilled
    only when it lists none. *)
Theorem announce_channel (channel_id : string) (f : File) :
  ∃ m, announce (file_add_channel channel_id f) = Some m ∧
       m_channel m = default channel_id (last (f_groups f ++ f_ims f)) ∧
       m_user m = f_user f.
Proof.
  unfold announce, file_add_channel. simpl.
  rewrite <- app_assoc, last_app, (last_app [channel_id]).
  destruct (last (f_groups f ++ f_ims f)) as [c|]; simpl; eauto.
Qed.

(** ** Relating the state after a call to the state before *)

Section Along.

Context (R : relation Slack) `{!PreOrder R}.

Lemma along_ret {A} (a : A) : Along R (mret a).
Proof using Type*. by intros s. Qed.

Lemma along_raise {A} (e : exn) : Along R (raise e : SM A).
Proof using Type*. by intros s. Qed.

Lemma along_timeout {A} : Along R (timeout : SM A).
Proof using Type*. by intros s. Qed.

Lemma along_gets {A} (f : Slack → A) : Along R (gets f).
Proof using Type*. by intros s. Qed.

Lemma along_modify (f : Slack → Slack) : (∀ s, R s (f s)) → Along R (modify f).
Proof using Type*. intros Hf s. apply Hf. Qed.

Lemma along_bind {A B} (m : SM A) (f : A → SM B) :
  Along R m → (∀ a, Along R (f a)) → Along R (m ≫= f).
Proof using Type*.
  intros Hm Hf s. unfold mbind, M_bind. specialize (Hm s).
  destruct (m s) as [[a| |] s1]; simpl in *; try done.
  by etrans; [|apply Hf].
Qed.

Lemma along_try {A} (body : SM A) (h : exn → option (SM A)) :
  Along R body → (∀ e k, h e = Some k → Along R k) → Along R (try_except body h).
Proof using Type*.
  intros Hb Hh s. unfold try_except. specialize (Hb s).
  destruct (body s) as [[a|e|] s1]; simpl in *; try done.
  destruct (h e) as [k|] eqn:Hk; simpl; [|done].
  by etrans; [|apply (Hh e k Hk)].
Qed.

Lemma along_try_any {A} (body k : SM A) :
  Along R body → Along R k → Along R (try_except body (any_exception k)).
Proof using Type*. intros Hb Hk. apply along_try; [done|]. by intros e k' [= <-]. Qed.

Lemma along_for_each {A} (l : list A) (body : A → SM unit) :
  (∀ x, Along R (body x)) → Along R (for_each l body).
Proof using Type*.
  intros Hb. induction l as [|x l IH]; simpl.
  - apply along_ret.
  - apply along_bind; [apply Hb | by intros _].
Qed.

Lemma along_api_call (req : Request) :
  (∀ s, R s (set_calls (calls s ++ [req]) s)) → Along R (api_call req).
Proof using Type*. intros Hc s. unfold api_call. destruct (remote _ _); apply Hc. Qed.

End Along.

(** Structural steps of a proof of [Along]; [side] closes the conditions
    on the primitive updates. *)
Ltac along_step side :=
  match goal with
  | |- Along _ (mret _) => apply along_ret; apply _
  | |- Along _ (raise _) => apply along_raise; apply _
  | |- Along _ timeout => apply along_timeout; apply _
  | |- Along _ (gets _) => apply along_gets; apply _
  | |- Along _ (api_call _) => apply along_api_call; [apply _|]; intros ?; side
  | |- Along _ (modify _) => apply along_modify; [apply _|]; intros ?; side
  | |- Along _ (check_ok _) => unfold check_ok
  | |- Along _ (push_event _) => unfold push_event
  | |- Along _ (sleep _) => unfold sleep
  | |- Along _ (_ ≫= _) => apply along_bind; [apply _| |intros ?]
  | |- Along _ (try_except _ (any_exception _)) => apply along_try_any; [apply _| |]
  | |- Along _ (for_each _ _) => apply along_for_each; [apply _|]; intros ?
  | |- Along _ (if ?b then _ else _) => destruct b
  | |- Along _ (match ?x with _ => _ end) => destruct x
  | |- Along _ _ => solve [auto]
  | |- Along _ _ => progress simpl
  end.
Ltac along side := repeat along_step side.

#[local] Instance same_users_preorder : PreOrder same_users.
Proof.
  split.
  - by intros s.
  - intros s1 s2 s3 [H1 H2] [H3 H4]. split; congruence.
Qed.

#[local] Instance timestamp_grows_preorder : PreOrder timestamp_grows.
Proof.
  split.
  - intros s. unfold timestamp_grows. lia.
  - intros s1 s2 s3. unfold timestamp_grows. lia.
Qed.

#[local] Instance sent_shrinks_preorder : PreOrder sent_shrinks.
Proof.
  split.
  - intros s x Hx. exact Hx.
  - intros s1 s2 s3 H1 H2 x Hx. apply H1, H2, Hx.
Qed.

#[local] Instance calls_extend_preorder (P : Request → Prop) :
  PreOrder (calls_extend P).
Proof.
  split.
  - intros s. exists []. by rewrite app_nil_r.
  - intros s1 s2 s3 (l1 & H1 & F1) (l2 & H2 & F2). exists (l1 ++ l2).
    split; [by rewrite H2, H1, app_assoc | by apply Forall_app].
Qed.

(** ** The channel list and its lookups *)

Lemma _channels_result (s : Slack) :
  match _channels s with
  | (Ok l, s') => _channelscache s' = l
  | (_, s') => _channelscache s' = _channelscache s ∧ _channelscache s = []
  end.
Proof.
  unfold _channels. munfold. simpl.
  destruct (_channelscache s) as [|c0 cs] eqn:Hc; [|by rewrite Hc].
  unfold api_call. destruct (remote _ _) as [r|]; simpl; [|done].
  destruct (ok r); [|done]. by destruct (body r).
Qed.

Lemma channels_result (refresh : bool) (s : Slack) :
  match channels refresh s with
  | (Ok l, s') => _channelscache s' = l
  | (_, s') => _channelscache s' = []
  end.
Proof.
  unfold channels. munfold. destruct refresh; simpl.
  - pose proof (_channels_result (set_channelscache [] s)) as H.
    destruct (_channels (set_channelscache [] s)) as [[l| |] s']; simpl in *;
      by try destruct H.
  - pose proof (_channels_result s) as H.
    destruct (_channels s) as [[l| |] s']; simpl in *; try done;
      destruct H; congruence.
Qed.

Lemma channels_no_timeout (refresh : bool) (s : Slack) :
  (channels refresh s).1 ≠ Timeout.
Proof.
  unfold channels, _channels, api_call. munfold. destruct refresh; simpl.
  - destruct (remote _ _) as [r|]; simpl; [|done].
    destruct (ok r); [|done]. by destruct (body r).
  - destruct (_channelscache s); simpl; [|done].
    destruct (remote _ _) as [r|]; simpl; [|done].
    destruct (ok r); [|done]. by destruct (body r).
Qed.

Lemma find_channel_result (p : Channel → bool) (s : Slack) :
  match find_channel p s with
  | (Ok c, s') => p c = true ∧ c ∈ _channelscache s'
  | (Raise _, s') => ∀ c, c ∈ _channelscache s' → p c = false
  | (Timeout, _) => False
  end.
Proof.
  unfold find_channel. munfold.
  pose proof (channels_result false s) as H0.
  pose proof (channels_no_timeout false s) as T0.
  destruct (channels false s) as [[l0|e0|] s0]; simpl in *.
  - destruct (find p l0) as [c|] eqn:Hf; simpl.
    + apply find_some in Hf as [Hin Hp]. subst l0.
      split; [done|]. by apply list_elem_of_In.
    + pose proof (channels_result true s0) as H1.
      pose proof (channels_no_timeout true s0) as T1.
      destruct (channels true s0) as [[l1|e1|] s1]; simpl in *.
      * destruct (find p l1) as [c|] eqn:Hf1; simpl.
        -- apply find_some in Hf1 as [Hin Hp]. subst l1.
           split; [done|]. by apply list_elem_of_In.
        -- subst l1. intros c Hc. apply list_elem_of_In in Hc.
           by apply (find_none _ _ Hf1).
      * rewrite H1. by intros c ?%elem_of_nil.
      * done.
  - rewrite H0. by intros c ?%elem_of_nil.
  - done.
Qed.

Lemma find_channel_hit (p : Channel → bool) (s : Slack) (c : Channel) :
  find p (_channelscache s) = Some c → find_channel p s = (Ok c, s).
Proof.
  intros Hf. unfold find_channel, channels, _channels. munfold. simpl.
  destruct (_channelscache s) as [|c0 cs] eqn:Hc; [done|]. by rewrite Hf.
Qed.

(** X4.  A channel found in the cached list is returned without any
    request and without any change.  Whatever [get_channel] and
    [get_channel_by_name] return has the id, resp. the name, asked for and
    is in the cached list afterwards.  When a lookup raises, the cached
    list afterwards holds no channel with that id, resp. name. *)
Theorem channel_lookups (key : string) (s : Slack) :
  (∀ c,
     find (λ c, bool_decide (ch_id c = key)) (_channelscache s) = Some c →
     get_channel key s = (Ok c, s)) ∧
  (∀ c,
     find (λ c, bool_decide (ch_name c = key)) (_channelscache s) = Some c →
     get_channel_by_name key s = (Ok c, s)) ∧
  (∀ c s', get_channel key s = (Ok c, s') →
           ch_id c = key ∧ c ∈ _channelscache s') ∧
  (∀ c s', get_channel_by_name key s = (Ok c, s') →
           ch_name c = key ∧ c ∈ _channelscache s') ∧
  (∀ e s', get_channel key s = (Raise e, s') →
           ∀ c, c ∈ _channelscache s' → ch_id c ≠ key) ∧
  (∀ e s', get_channel_by_name key s = (Raise e, s') →
           ∀ c, c ∈ _channelscache s' → ch_name c ≠ key).
Proof.
  repeat apply conj.
  - intros c. apply find_channel_hit.
  - intros c. apply find_channel_hit.
  - intros c s' Hrun.
    pose proof (find_channel_result (λ c, bool_decide (ch_id c = key)) s) as H.
    unfold get_channel in Hrun. rewrite Hrun in H. destruct H as [Hp Hin].
    by apply bool_decide_eq_true in Hp.
  - intros c s' Hrun.
    pose proof (find_channel_result (λ c, bool_decide (ch_name c = key)) s) as H.
    unfold get_channel_by_name in Hrun. rewrite Hrun in H. destruct H as [Hp Hin].
    by apply bool_decide_eq_true in Hp.
  - intros e s' Hrun c Hin.
    pose proof (find_channel_result (λ c, bool_decide (ch_id c = key)) s) as H.
    unfold get_channel in Hrun. rewrite Hrun in H.
    specialize (H c Hin). by apply bool_decide_eq_false in H.
  - intros e s' Hrun c Hin.
    pose proof (find_channel_result (λ c, bool_decide (ch_name c = key)) s) as H.
    unfold get_channel_by_name in Hrun. rewrite Hrun in H.
    specialize (H c Hin). by apply bool_decide_eq_false in H.
Qed.

(** X5.  [channels] answers from a non-empty cache without a request.
    With an empty cache, or when a refresh is asked for, it makes exactly
    one list request, so an empty channel list is fetched again at every
    call.  A refresh empties the cache before the request: when the
    request fails, the list cached before is lost. *)
Theorem channels_cache (refresh : bool) (s : Slack) :
  (_channelscache s ≠ [] → channels false s = (Ok (_channelscache s), s)) ∧
  (refresh = true ∨ _channelscache s = [] →
   calls (channels refresh s).2 = calls s ++ [list_channels]) ∧
  (∀ e, (channels true s).1 = Raise e → _channelscache (channels true s).2 = []).
Proof.
  repeat apply conj.
  - intros Hne. unfold channels, _channels. munfold. simpl.
    by destruct (_channelscache s).
  - intros Hwhy. unfold channels, _channels, api_call, list_channels. munfold.
    destruct refresh; simpl.
    + destruct (remote _ _) as [r|]; simpl; [|done].
      destruct (ok r); [|done]. by destruct (body r).
    + destruct Hwhy as [|Hempty]; [done|]. rewrite Hempty. simpl.
      destruct (remote _ _) as [r|]; simpl; [|done].
      destruct (ok r); [|done]. by destruct (body r).
  - intros e He. pose proof (channels_result true s) as H.
    destruct (channels true s) as [[l| |] s']; simpl in *; done.
Qed.

(** ** The user caches *)

(** X6.  A user returned by [get_user] is cached under the id asked for,
    so asking again is answered from the cache, with no request and no
    change; when the user had to be fetched, it can from then on be
    resolved by its name too.  A lookup that fails leaves both caches as
    they were. *)
Theorem get_user_caches (id_ : string) (s : Slack) :
  (∀ u s', get_user id_ s = (Ok u, s') →
     _usercache s' !! id_ = Some u ∧
     get_user id_ s' = (Ok u, s') ∧
     (_usercache s !! id_ = None → get_user_by_name (u_name u) s' = (Ok u, s'))) ∧
  (∀ e s', get_user id_ s = (Raise e, s') → same_users s s').
Proof.
  unfold get_user, get_user_by_name, api_call. munfold. simpl. split.
  - intros u s'. destruct (_usercache s !! id_) as [u0|] eqn:Hc; simpl.
    + intros [= <- <-]. rewrite Hc. done.
    + destruct (remote _ _) as [r|]; simpl; [|done].
      destruct (ok r); [|done]. destruct (body r); try done.
      intros [= <- <-]. simpl. rewrite !lookup_insert_eq. done.
  - intros e s'. destruct (_usercache s !! id_) as [u0|] eqn:Hc; simpl; [done|].
    destruct (remote _ _) as [r|]; simpl; [|by intros [= <- <-]].
    destruct (ok r); [|by intros [= <- <-]].
    destruct (body r); try done; by intros [= <- <-].
Qed.

Lemma users_consistent_insert (i : string) (u : User) (s : Slack) :
  users_consistent s →
  users_consistent
    (set_usermapcache (<[u_name u := u]> (_usermapcache s))
       (set_usercache (<[i := u]> (_usercache s)) s)).
Proof.
  intros [Hname Hid]. split; simpl.
  - intros n u'. rewrite lookup_insert. case_decide; [by intros [= <-]|]. apply Hname.
  - intros j u'. rewrite lookup_insert. case_decide.
    + intros [= <-]. rewrite lookup_insert_eq. done.
    + intros Hj. rewrite lookup_insert. case_decide; [done|]. by apply (Hid j).
Qed.

Lemma users_consistent_same (s s' : Slack) :
  same_users s s' → users_consistent s → users_consistent s'.
Proof. intros [H1 H2] [Hname Hid]. split; rewrite ?H1, ?H2; done. Qed.

Lemma users_consistent_get_user (id_ : string) (s : Slack) :
  users_consistent s → users_consistent (get_user id_ s).2.
Proof.
  intros Hs. unfold get_user, api_call. munfold. simpl.
  destruct (_usercache s !! id_) as [u0|] eqn:Hc; simpl; [done|].
  destruct (remote _ _) as [r|]; simpl; [|done].
  destruct (ok r); [|done]. destruct (body r); try done. simpl.
  by apply (users_consistent_insert id_ user
              (set_calls (calls s ++ [ReqUsersInfo id_]) s)).
Qed.

(** The loop of [prefetch_users]. *)
Lemma prefetch_loop (l : list User) (s : Slack) :
  ∃ s',
    for_each l (λ user,
      modify (λ s, set_usercache (<[u_id user := user]> (_usercache s)) s) ;;
      modify (λ s, set_usermapcache (<[u_name user := user]> (_usermapcache s)) s)) s
    = (Ok tt, s') ∧
    calls s' = calls s ∧
    (users_consistent s → users_consistent s') ∧
    ∀ i, (∃ u, u ∈ l ∧ _usercache s' !! i = Some u ∧ u_id u = i) ∨
         (_usercache s' !! i = _usercache s !! i ∧ ∀ u, u ∈ l → u_id u ≠ i).
Proof.
  set (body := λ user : User, _).
  revert s. induction l as [|x l IH]; intros s.
  - exists s. split; [done|]. split; [done|]. split; [done|].
    intros i. right. split; [done|]. by intros u ?%elem_of_nil.
  - simpl. unfold mbind at 1, M_bind at 1. unfold body at 1. munfold. simpl.
    match goal with
    | |- context [for_each l _ ?s1] =>
        destruct (IH s1) as (s' & Hrun & Hcalls & Hcons & Hall)
    end.
    exists s'. rewrite Hrun. split; [done|]. split; [done|]. split.
    + intros Hs. apply Hcons. by apply (users_consistent_insert (u_id x) x s).
    + intros i. destruct (Hall i) as [(u & Hu & Hi & Hid)|[Hsame Hnone]].
      * left. exists u. split; [by apply list_elem_of_further|done].
      * simpl in Hsame. destruct (decide (u_id x = i)) as [<-|Hne].
        -- left. exists x. rewrite Hsame, lookup_insert_eq.
           split; [apply list_elem_of_here|done].
        -- right. rewrite Hsame, lookup_insert_ne by done. split; [done|].
           intros u [->|Hu]%elem_of_cons; [done|by apply Hnone].
Qed.

Lemma users_consistent_prefetch (s : Slack) :
  users_consistent s → users_consistent (prefetch_users s).2.
Proof.
  intros Hs. unfold prefetch_users, api_call. unfold mbind at 1, M_bind at 1.
  destruct (remote _ _) as [r|]; simpl; [|done].
  destruct (ok r); [|done]. destruct (body r); try done.
  match goal with
  | |- context [for_each ?l _ ?s1] =>
      destruct (prefetch_loop l s1) as (s' & Hrun & _ & Hcons & _)
  end.
  rewrite Hrun. by apply Hcons.
Qed.

(** X7.  After a directory prefetch that the remote answers, every listed
    user is answered from the cache by [get_user], with no further
    request; the user returned is one of the list with the id asked for.
    A directory request that the remote refuses is ignored without an
    error and changes nothing but the call log. *)
Theorem prefetch_then_get_user (s : Slack) (r : Resp) :
  remote (length (calls s)) ReqUsersList = Some r →
  (∀ l, ok r = true → body r = BUsers l →
     (prefetch_users s).1 = Ok tt ∧
     ∀ u, u ∈ l →
       ∃ u', u' ∈ l ∧ u_id u' = u_id u ∧
             get_user (u_id u) (prefetch_users s).2
             = (Ok u', (prefetch_users s).2)) ∧
  (ok r = false →
     prefetch_users s = (Ok tt, set_calls (calls s ++ [ReqUsersList]) s)).
Proof.
  intros Hr. split.
  - intros l Hok Hbody.
    destruct (prefetch_loop l (set_calls (calls s ++ [ReqUsersList]) s))
      as (s' & Hrun & _ & _ & Hall).
    assert (prefetch_users s = (Ok tt, s')) as ->.
    { unfold prefetch_users, api_call. unfold mbind at 1, M_bind at 1.
      rewrite Hr, Hok, Hbody. exact Hrun. }
    split; [done|]. intros u Hu. simpl.
    destruct (Hall (u_id u)) as [(u' & Hu' & Hi & Hid)|[_ Hnone]].
    + exists u'. split; [done|]. split; [done|].
      unfold get_user. munfold. simpl. by rewrite Hi.
    + by destruct (Hnone u Hu).
  - intros Hok. unfold prefetch_users, api_call. unfold mbind at 1, M_bind at 1.
    by rewrite Hr, Hok.
Qed.

#[local] Instance keeps_consistent_preorder : PreOrder keeps_consistent.
Proof.
  split.
  - intros s H. exact H.
  - intros s1 s2 s3 H1 H2 H. by apply H2, H1.
Qed.

(** ** What a call of [event] can do to the state

    A relation that every primitive update of [event] respects is
    respected by [event] as a whole. *)

Section EventSteps.

Context (R : relation Slack) `{!PreOrder R}.

Hypothesis R_call : ∀ req s, read_only req → R s (set_calls (calls s ++ [req]) s).
Hypothesis R_sleep : ∀ v s, R s (set_slept v s).
Hypothesis R_login : ∀ v s, R s (set_login_info v s).
Hypothesis R_channels : ∀ v s, R s (set_channelscache v s).
Hypothesis R_im : ∀ v s, R s (set_imcache v s).
Hypothesis R_members : ∀ v s, R s (set_members_cache v s).
Hypothesis R_queue : ∀ v s, R s (set_internalevents v s).
Hypothesis R_seen : ∀ t s, t > last_timestamp (_status s) → R s (set_last_timestamp t s).
Hypothesis R_match : ∀ t s, R s (set_sent_by_self (_sent_by_self s ∖ {[t]}) s).
Hypothesis R_purge :
  ∀ now s, R s (set_sent_by_self (filter (λ i, ¬ (now - i >= 10)) (_sent_by_self s)) s).
Hypothesis R_user_change :
  ∀ i s, R s (set_usercache (delete i (_usercache s)) s).

Ltac step_side :=
  simpl;
  first
    [ apply R_call; exact I
    | apply R_sleep | apply R_login | apply R_channels | apply R_im
    | apply R_members | apply R_queue | apply R_match | apply R_purge
    | apply R_user_change
    | unfold bump_timestamp; case_decide; [apply R_seen; lia | reflexivity]
    | case_decide; [apply R_seen; lia | reflexivity] ].

Lemma along_channels (refresh : bool) : Along R (channels refresh).
Proof using Type*. unfold channels, _channels. along step_side. Qed.

Lemma along_thread_pages (fuel : nat) (channel : string) (thread_id : Z)
    (cursor : option string) (r : list HistMsg) :
  Along R (thread_pages fuel channel thread_id cursor r).
Proof using Type*.
  revert cursor r. induction fuel as [|fuel IH]; intros cursor r; simpl;
    along step_side.
Qed.

Lemma along_history_msgs (fuel : nat) (channel_id : string) (last_ts : Z)
    (msg_list : list HistMsg) :
  Along R (history_msgs fuel channel_id last_ts msg_list).
Proof using Type*.
  pose proof along_thread_pages as Hthread.
  revert msg_list. induction fuel as [|fuel IH]; intros msg_list; simpl;
    [along step_side|].
  destruct msg_list as [|msg msg_list]; [along step_side|].
  unfold _thread_history. along step_side.
Qed.

Lemma along_history_pages (fuel : nat) (channel_id : string) (last_ts : Z)
    (cursor : option string) :
  Along R (history_pages fuel channel_id last_ts cursor).
Proof using Type*.
  pose proof along_history_msgs as Hmsgs.
  revert cursor. induction fuel as [|fuel IH]; intros cursor; simpl;
    along step_side.
Qed.

Lemma along_history (fuel : nat) : Along R (_history fuel).
Proof using Type*.
  pose proof along_history_pages as Hpages. pose proof along_channels as Hch.
  unfold _history. along step_side.
Qed.

Lemma along_scan_ims (im_id : string) (ims : list IM) : Along R (scan_ims im_id ims).
Proof using Type*. induction ims as [|im ims IH]; simpl; along step_side. Qed.

Lemma along_get_im (im_id : string) : Along R (get_im im_id).
Proof using Type*.
  pose proof along_scan_ims as Hscan. unfold get_im, get_ims. along step_side.
Qed.

Lemma along_event_message (event : RawEvent) : Along R (event_message event).
Proof using Type*.
  pose proof along_get_im as Him. unfold event_message. along step_side.
Qed.

Lemma along_update_members (ev : option SlackEvent) : Along R (update_members ev).
Proof using Type*. unfold update_members. along step_side. Qed.

Lemma along_event_loop (now : Z) (events : list RawEvent) :
  Along R (event_loop now events).
Proof using Type*.
  pose proof along_event_message as Hmsg. pose proof along_update_members as Hupd.
  induction events as [|event events IH]; simpl; [along step_side|].
  unfold _triage_sent_by_self. along step_side.
Qed.

Lemma along_event (fuel : nat) (now : Z) : Along R (event fuel now).
Proof using Type*.
  pose proof along_event_loop as Hloop. pose proof along_history as Hhist.
  unfold event, rtm_read, rtm_connect. along step_side.
Qed.

End EventSteps.

(** X8.  A call of [event] never moves the last processed timestamp
    backwards, whatever the remote answers and however the call ends. *)
Theorem event_timestamp_monotone (fuel : nat) (now : Z) (s : Slack) :
  last_timestamp (_status s) <= last_timestamp (_status (event fuel now s).2).
Proof.
  apply (along_event timestamp_grows); unfold timestamp_grows; simpl; intros; lia.
Qed.

(** X9.  A call of [event] never adds a timestamp to the suppression set:
    the set afterwards is included in the set before. *)
Theorem event_never_adds_suppression (fuel : nat) (now : Z) (s : Slack) :
  _sent_by_self (event fuel now s).2 ⊆ _sent_by_self s.
Proof.
  apply (along_event sent_shrinks); unfold sent_shrinks; simpl; intros;
    try done; set_solver.
Qed.

(** X10.  The two user caches stay consistent: the fresh state is
    consistent, and [get_user], [prefetch_users] and [event], the calls
    that write them, keep them so.  In a consistent state every user
    cached by id resolves by name. *)
Theorem user_caches_consistent (fuel : nat) (now : Z) (id_ : string) (s : Slack) :
  users_consistent Slack_init ∧
  (users_consistent s →
     users_consistent (get_user id_ s).2 ∧
     users_consistent (prefetch_users s).2 ∧
     users_consistent (event fuel now s).2 ∧
     ∀ u, _usercache s !! id_ = Some u →
          ∃ u', get_user_by_name (u_name u) s = (Ok u', s) ∧ u_name u' = u_name u).
Proof.
  split.
  - split; intros i u; simpl; by rewrite lookup_empty.
  - intros Hs. split; [by apply users_consistent_get_user|].
    split; [by apply users_consistent_prefetch|]. split.
    + revert Hs. apply (along_event keeps_consistent);
        unfold keeps_consistent; simpl; intros; try done.
      match goal with H : users_consistent _ |- _ => destruct H as [Hname Hid] end.
      split; simpl; [done|].
      intros j u'. rewrite lookup_delete. case_decide; [done|]. apply Hid.
    + intros u Hu. destruct Hs as [Hname Hid].
      destruct (Hid id_ u Hu) as [u' Hu'].
      exists u'. unfold get_user_by_name. munfold. simpl. rewrite Hu'.
      split; [done|]. by apply Hname.
Qed.

(** X11.  A call of [event] only reads from the remote service: every
    request it makes is a stream read, a reconnection, a channel or
    conversation list, a history page or a reply page.  It never posts,
    joins, or changes anything on the remote side. *)
Theorem event_only_reads (fuel : nat) (now : Z) (s : Slack) :
  ∃ l, calls (event fuel now s).2 = calls s ++ l ∧ Forall read_only l.
Proof.
  apply (along_event (calls_extend read_only)); unfold calls_extend; simpl;
    try (intros; exists []; by rewrite app_nil_r).
  intros req s0 Hreq. exists [req]. split; [done|]. by constructor.
Qed.

(** ** History backfill *)

Lemma history_plain_run (k : nat) (channel_id : string) (last_ts : Z)
    (l : list HistMsg) (s : Slack) :
  Forall (λ m, opens_thread m = false) l →
  ∃ s',
    history_msgs (length l + S k) channel_id last_ts l s = (Ok tt, s') ∧
    calls s' = calls s ∧
    _internalevents s'
    = _internalevents s ++ flat_map (entry_events channel_id last_ts) l ∧
    last_timestamp (_status s')
    = seen_through last_ts l (last_timestamp (_status s)).
Proof.
  intros Hl. revert s. induction Hl as [|m l Hm Hl IH]; intros s.
  - exists s. simpl. by rewrite app_nil_r.
  - simpl. unfold entry_events, seen_through. simpl.
    destruct (decide (h_ts m = last_ts)) as [Heq|Hne].
    + destruct (IH s) as (s' & Hrun & Hc & Hq & Ht). exists s'. by rewrite Hrun.
    + munfold. simpl. rewrite history_files. simpl. rewrite Hm.
      unfold push_event. munfold. simpl.
      match goal with
      | |- context [history_msgs _ _ _ l ?s0] =>
          destruct (IH s0) as (s' & Hrun & Hc & Hq & Ht)
      end.
      exists s'. rewrite Hrun. split; [done|]. split; [|split].
      * rewrite Hc. simpl. clear. by case_decide.
      * rewrite Hq. simpl. case_decide; simpl; rewrite <- !app_assoc; reflexivity.
      * rewrite Ht. simpl. unfold seen_through. f_equal.
        case_decide; simpl; lia.
Qed.

(** X12.  A history page whose entries open no thread is queued entry by
    entry in page order, without any further request; the entry that
    repeats the last seen timestamp, which the remote sends again, queues
    nothing; and the last processed timestamp ends at the greatest
    timestamp met, never below where it started. *)
Theorem history_page_plain (fuel : nat) (channel_id : string) (last_ts : Z)
    (l : list HistMsg) (s : Slack) :
  Forall (λ m, opens_thread m = false) l →
  (length l < fuel)%nat →
  ∃ s',
    history_msgs fuel channel_id last_ts l s = (Ok tt, s') ∧
    calls s' = calls s ∧
    _internalevents s'
    = _internalevents s ++ flat_map (entry_events channel_id last_ts) l ∧
    last_timestamp (_status s')
    = seen_through last_ts l (last_timestamp (_status s)) ∧
    (∀ m, m ∈ l → h_ts m = last_ts → entry_events channel_id last_ts m = []) ∧
    (∀ m, m ∈ l → h_ts m ≠ last_ts → h_ts m <= last_timestamp (_status s')).
Proof.
  intros Hl Hfuel.
  destruct (history_plain_run (fuel - length l - 1) channel_id last_ts l s Hl)
    as (s' & Hrun & Hc & Hq & Ht).
  replace (length l + S (fuel - length l - 1))%nat with fuel in Hrun by lia.
  exists s'. repeat (split; [done|]). split.
  - intros m _ Heq. unfold entry_events. by rewrite decide_True.
  - rewrite Ht. clear. generalize (last_timestamp (_status s)).
    unfold seen_through. induction l as [|x l IH]; intros t0 m Hin Hne.
    + by apply elem_of_nil in Hin.
    + simpl. apply elem_of_cons in Hin as [->|Hin].
      * rewrite decide_False by done.
        assert (∀ l t, t <= foldl (λ acc m, if decide (h_ts m = last_ts) then acc
                                            else Z.max acc (h_ts m)) t l) as Hmono.
        { clear. induction l as [|y l IH]; intros t; simpl; [lia|].
          etrans; [|apply IH]. case_decide; lia. }
        etrans; [|apply Hmono]. lia.
      * by apply IH.
Qed.

(** X13.  When the reply fetch for a thread opener cannot be read (the
    remote answers, but not with an ok history), the backfill of the page
    stops there with [IndexError]: the files of the opener are queued, the
    opener itself and the rest of the page are not. *)
Theorem history_thread_unreadable (fuel : nat) (channel_id : string) (last_ts : Z)
    (root : HistMsg) (rest : list HistMsg) (s : Slack) (r : Resp) :
  opens_thread root = true →
  h_ts root ≠ last_ts →
  remote (length (calls s)) (ReqReplies channel_id (h_ts root) None) = Some r →
  load_History r = None →
  let run := history_msgs (S (S fuel)) channel_id last_ts (root :: rest) s in
  run.1 = Raise IndexError ∧
  _internalevents run.2 = _internalevents s ++ file_events channel_id (h_files root) ∧
  calls run.2 = calls s ++ [ReqReplies channel_id (h_ts root) None].
Proof.
  intros Hopen Hne Hr Hload run.
  set (s1 := if decide (last_timestamp (_status s) < h_ts root)
             then set_last_timestamp (h_ts root) s else s).
  set (s2 := set_internalevents
               (_internalevents s1 ++ file_events channel_id (h_files root)) s1).
  assert (calls s1 = calls s ∧ _internalevents s1 = _internalevents s) as [Hc Hq]
    by (unfold s1; by case_decide).
  assert (run = (Raise IndexError,
                 set_calls (calls s2 ++ [ReqReplies channel_id (h_ts root) None]) s2))
    as ->.
  { unfold run. rewrite history_msgs_opener by done. fold s1 s2.
    unfold mbind at 1, M_bind at 1. unfold _thread_history. simpl.
    unfold mbind at 1 2, M_bind at 1 2. unfold api_call.
    replace (length (calls s2)) with (length (calls s)) by (simpl; by rewrite Hc).
    by rewrite Hr, Hload. }
  simpl. by rewrite Hc, Hq.
Qed.

(** ** The live event loop *)

Lemma event_loop_typed (now : Z) (event_ : RawEvent) (rest : list RawEvent)
    (ev : SlackEvent) (s : Slack) :
  default 0 (r_ts event_) ∉ _sent_by_self s →
  is_useless (r_type event_) = false →
  load_typed event_ = Some ev →
  (∀ u c, ev ≠ Join u c ∧ ev ≠ Leave u c) →
  event_loop now (event_ :: rest) s
  = (Ok (Some ev), bump_timestamp (default 0 (r_ts event_)) s).
Proof.
  intros Hts Hu Hl Hev. simpl. munfold. simpl.
  rewrite bump_timestamp_sent. rewrite decide_False by done.
  rewrite Hu, Hl. simpl.
  destruct ev; simpl; try done.
  - by destruct (Hev user channel) as [? _].
  - by destruct (Hev user channel) as [_ ?].
Qed.

(** X14.  [event] hands out at most one event per batch read from the
    stream: when the first event of a batch is of a known shape other than
    join or leave and is no echo, it is returned at once, and the events
    behind it in the batch are never looked at; nothing of them is kept. *)
Theorem event_batch_first_only (fuel : nat) (now : Z) (event_ : RawEvent)
    (rest : list RawEvent) (ev : SlackEvent) (s : Slack) :
  _internalevents s = [] →
  remote (length (calls s)) ReqRtmRead = Some (mkResp true (BEvents (event_ :: rest))) →
  default 0 (r_ts event_) ∉ _sent_by_self s →
  is_useless (r_type event_) = false →
  load_typed event_ = Some ev →
  (∀ u c, ev ≠ Join u c ∧ ev ≠ Leave u c) →
  event fuel now s
  = (Ok (Some ev),
     bump_timestamp (default 0 (r_ts event_)) (set_calls (calls s ++ [ReqRtmRead]) s)).
Proof.
  intros Hq Hr Hts Hu Hl Hev. unfold event.
  unfold mbind at 1, M_bind at 1. unfold gets at 1. rewrite Hq. simpl.
  unfold mbind at 1, M_bind at 1.
  unfold try_except at 1, rtm_read, api_call.
  unfold mbind at 1 2, M_bind at 1 2. rewrite Hr. simpl.
  by apply event_loop_typed.
Qed.

(** ** Direct-message channels and sending *)

Lemma scan_ims_found (im_id : string) (ims : list IM) (s s' : Slack) (im : IM) :
  scan_ims im_id ims s = (Ok (Some im), s') →
  IM_id im = im_id ∧ _imcache s' !! IM_user im = Some im_id.
Proof.
  revert s. induction ims as [|x ims IH]; intros s; simpl; [done|].
  munfold. simpl. destruct (decide (IM_id x = im_id)) as [Heq|Hne].
  - intros [= <- <-]. simpl. rewrite lookup_insert_eq. by rewrite Heq.
  - apply IH.
Qed.

(** X15.  [get_im] makes no request for an id that does not start with
    [D] and answers that there is no such conversation.  An answer it
    gives has the id asked for, and afterwards the conversation cache
    maps the answer's user to that id. *)
Theorem get_im_answer (im_id : string) (s : Slack) :
  (String.prefix "D" im_id = false → get_im im_id s = (Ok None, s)) ∧
  (∀ im s', get_im im_id s = (Ok (Some im), s') →
     IM_id im = im_id ∧ _imcache s' !! IM_user im = Some im_id).
Proof.
  split.
  - intros Hd. unfold get_im. by rewrite Hd.
  - intros im s'. unfold get_im. destruct (String.prefix "D" im_id); [|done].
    simpl. munfold. simpl.
    destruct (find _ (map_to_list (_imcache s))) as [[uid imid]|] eqn:Hf.
    + apply find_some in Hf as [Hin Heq]. intros [= <- <-]. simpl in *.
      apply bool_decide_eq_true in Heq. subst imid. split; [done|].
      by apply list_elem_of_In, elem_of_map_to_list in Hin.
    + unfold get_ims, api_call. munfold.
      destruct (remote _ _) as [r|]; simpl; [|done].
      destruct (ok r); [|done]. destruct (body r); try done.
      apply scan_ims_found.
Qed.

(** X16.  [send_message] makes exactly one request, to the posting or the
    emote call as asked.  Only an ok answer that carries a non-zero
    timestamp is a success, and it records exactly that timestamp for
    echo suppression; any other outcome raises and leaves the suppression
    set as it was, also when the remote said ok without a timestamp. *)
Theorem send_message_outcome (channel_id msg : string) (action : bool) (s : Slack) :
  let run := send_message channel_id msg action s in
  let api := if action then "chat.meMessage" else "chat.postMessage" in
  calls run.2 = calls s ++ [ReqChat api channel_id msg] ∧
  (run.1 = Ok tt →
     ∃ ts, ts ≠ 0 ∧
       remote (length (calls s)) (ReqChat api channel_id msg)
         = Some (mkResp true (BSent (Some ts))) ∧
       _sent_by_self run.2 = {[ts]} ∪ _sent_by_self s) ∧
  (run.1 ≠ Ok tt → run.1 ≠ Timeout ∧ _sent_by_self run.2 = _sent_by_self s).
Proof.
  intros run api. unfold run, send_message, api_call. munfold. fold api.
  destruct (remote _ _) as [[okr b]|]; simpl; [|done].
  destruct okr; simpl; [|done].
  destruct b as [| | | | | | | | | |[ts|]|]; simpl; try done.
  case_decide; simpl; [done|].
  split; [done|]. split; [|done]. intros _. by exists ts.
Qed.

Lemma send_message_imcache (channel_id msg : string) (action : bool) (s : Slack) :
  _imcache (send_message channel_id msg action s).2 = _imcache s.
Proof.
  unfold send_message, api_call. munfold.
  destruct (remote _ _) as [[okr b]|]; simpl; [|done].
  destruct okr; simpl; [|done].
  destruct b as [| | | | | | | | | |[ts|]|]; simpl; try done.
  by case_decide.
Qed.

(** X17.  When the conversation with a user is cached,
    [send_message_to_user] goes straight to [send_message] on the cached
    channel, without listing the conversations.  After any successful
    send to a user the conversation is cached. *)
Theorem send_message_to_user_cache (user_id msg : string) (action : bool) (s : Slack) :
  (∀ channel_id, _imcache s !! user_id = Some channel_id →
     send_message_to_user user_id msg action s
     = send_message channel_id msg action s) ∧
  (∀ s', send_message_to_user user_id msg action s = (Ok tt, s') →
     is_Some (_imcache s' !! user_id)).
Proof.
  split.
  - intros channel_id Hc. unfold send_message_to_user.
    unfold mbind at 1 2, M_bind at 1 2. unfold gets. by rewrite Hc.
  - intros s'. unfold send_message_to_user.
    unfold mbind at 1 2, M_bind at 1 2. unfold gets.
    destruct (_imcache s !! user_id) as [ch|] eqn:Hc.
    + simpl. intros Hrun.
      pose proof (send_message_imcache ch msg action s) as Hframe.
      rewrite Hrun in Hframe. simpl in Hframe. by rewrite Hframe, Hc.
    + unfold get_ims, api_call. munfold.
      destruct (remote _ _) as [r|]; simpl; [|done].
      destruct (ok r); [|done]. destruct (body r) as [| | | | | |ims| | | | |]; try done.
      destruct (find _ ims) as [i|]; simpl.
      * intros Hrun.
        match type of Hrun with
        | send_message ?ch _ _ ?s0 = _ =>
            pose proof (send_message_imcache ch msg action s0) as Hframe
        end.
        rewrite Hrun in Hframe. simpl in Hframe.
        by rewrite Hframe, lookup_insert_eq.
      * destruct (remote _ _) as [r2|]; simpl; [|done].
        destruct (ok r2); [|done]. destruct (body r2); try done. simpl.
        intros Hrun.
        match type of Hrun with
        | send_message ?ch _ _ ?s0 = _ =>
            pose proof (send_message_imcache ch msg action s0) as Hframe
        end.
        rewrite Hrun in Hframe. simpl in Hframe.
        by rewrite Hframe, lookup_insert_eq.
Qed.

(** ** The command interpreter *)

(** X18.  A line whose first token is not in the dispatch table (tokens
    are compared as they are, upper and lower case differ) is answered
    with exactly one unknown-command numeric naming the token; nothing
    else changes and nothing is raised. *)
Theorem unknown_command (now : Z) (cmd : string) (c : Client) :
  command_token cmd ∉ known_commands →
  command now cmd c
  = (Ok tt,
     set_written
       (written c ++
          [Reply (hostname c) ERR_UNKNOWNCOMMAND [nick c; command_token cmd]
             "Unknown command"]) c).
Proof.
  intros Hnew. unfold command. fold (command_token cmd).
  assert (∀ t, t ∈ known_commands → command_token cmd ≠ t) as Hne
    by (intros t Ht Heq; by rewrite Heq in Hnew).
  unfold known_commands in Hne.
  repeat (rewrite decide_False by (apply Hne; set_solver)).
  done.
Qed.

(** X19.  A command that is sent with fewer fields than its handler
    unpacks is not answered: the handler raises [ValueError] before it
    touches anything.  This holds for NICK, PING, JOIN, PART and WHO
    without an argument, for PRIVMSG, TOPIC and INVITE with fewer than two
    arguments, and for KICK with fewer than three. *)
Theorem short_command_raises (cmd : string) (c : Client) :
  ((length (split_space 1 cmd) < 2)%nat →
     _nickhandler cmd c = (Raise ValueError, c) ∧
     _pinghandler cmd c = (Raise ValueError, c) ∧
     _joinhandler cmd c = (Raise ValueError, c) ∧
     _parthandler cmd c = (Raise ValueError, c) ∧
     _whohandler cmd c = (Raise ValueError, c)) ∧
  ((length (split_space 2 cmd) < 3)%nat →
     _privmsghandler cmd c = (Raise ValueError, c) ∧
     _topichandler cmd c = (Raise ValueError, c) ∧
     _invitehandler cmd c = (Raise ValueError, c)) ∧
  ((length (split_space 3 cmd) < 4)%nat →
     _kickhandler cmd c = (Raise ValueError, c)).
Proof.
  split; [|split].
  - intros Hlen.
    unfold _nickhandler, _pinghandler, _joinhandler, _parthandler, _whohandler.
    destruct (split_space 1 cmd) as [|a [|b [|? ?]]]; simpl in *; (done || lia).
  - intros Hlen. unfold _privmsghandler, _topichandler, _invitehandler.
    destruct (split_space 2 cmd) as [|a [|b [|b' [|? ?]]]]; simpl in *; (done || lia).
  - intros Hlen. unfold _kickhandler.
    destruct (split_space 3 cmd) as [|a [|b [|b' [|b'' [|? ?]]]]]; simpl in *;
      (done || lia).
Qed.

(** X20.  NICK stores the nickname it is given, stripped of surrounding
    white space, whether or not it is the account's name; when it is not,
    one erroneous-nickname numeric is written, addressed to the nickname
    just stored, and the nickname is kept all the same. *)
Theorem nick_is_stored (cmd verb nick_ : string) (info : LoginInfo) (c : Client) :
  split_space 1 cmd = [verb; nick_] →
  login_info (sl_client c) = Some info →
  _nickhandler cmd c
  = (Ok tt,
     set_written
       (written c ++
          (if decide (strip nick_ = self_name info) then []
           else [Reply (hostname c) ERR_ERRONEUSNICKNAME [strip nick_]
                   ("Incorrect nickname, use " +:+ self_name info)]))
       (set_nick (strip nick_) c)).
Proof.
  intros Hsplit Hinfo. unfold _nickhandler, get_login_info. rewrite Hsplit.
  munfold. cunfold. simpl. rewrite Hinfo. simpl.
  destruct (decide (strip nick_ = self_name info)) as [Heq|Hne].
  - rewrite decide_False by (intros H; by apply H).
    rewrite app_nil_r. by destruct c.
  - by rewrite decide_True.
Qed.

(** ** Delivery of messages and of join and leave notices *)

(** X21.  A message whose sender and channel both resolve is delivered to
    [#name] of that channel, one PRIVMSG per non-empty line of the
    prefixed text and in the order of the lines, unless that channel name
    has been parted on the IRC side. *)
Theorem known_channel_message (sl_ev : Outgoing) (prefix source : string)
    (ch : Channel) (c : Client) (s1 s2 : Slack) :
  match o_user sl_ev with
  | Some uid => ∃ u, get_user uid (sl_client c) = (Ok u, s1) ∧ source = u_name u
  | None => s1 = sl_client c ∧ source = "bot"
  end →
  get_channel (o_channel sl_ev) s1 = (Ok ch, s2) →
  ("#" +:+ ch_name ch) ∉ parted_channels c →
  (∀ n t s, ∃ t', (parse_message n t s).1 = Ok t') →
  ∃ c' texts,
    _message sl_ev prefix c = (Ok tt, c') ∧
    written c' = written c ++ (Privmsg source ("#" +:+ ch_name ch) <$> texts) ∧
    Forall2 (λ line text, ∃ s t, (parse_message (nick c) line s).1 = Ok t ∧
                                 text = wrap_action (o_action sl_ev) t)
            (filter (λ l, l ≠ "") (split_all "010" (prefix +:+ o_text sl_ev)))
            texts.
Proof.
  intros Hsrc Hch Hpart Htotal.
  destruct (message_lines source ("#" +:+ ch_name ch) (o_action sl_ev)
              (split_all "010" (prefix +:+ o_text sl_ev)) (set_sl_client s2 c) Htotal)
    as (c' & texts & Hrun & Hw & Hn & Hall).
  exists c', texts. split; [|split; [done|done]].
  unfold _message. munfold. cunfold.
  destruct (o_user sl_ev) as [uid|].
  - destruct Hsrc as (u & Hu & ->). simpl. rewrite Hu. simpl. rewrite Hch. simpl.
    rewrite decide_False by done. exact Hrun.
  - destruct Hsrc as [-> ->]. simpl. rewrite Hch. simpl.
    rewrite decide_False by done. exact Hrun.
Qed.

(** X22.  PART silences a channel.  After [PART #name] nothing more is
    written for the channel of that name: a message for it is dropped
    after the two lookups, whatever its text, and so is the notice that a
    user joined or left it.  PART itself writes nothing and contacts
    nobody. *)
Theorem part_silences (cmd verb : string) (ch : Channel) (c : Client) :
  split_space 1 cmd = [verb; "#" +:+ ch_name ch] →
  ∃ c1,
    _parthandler cmd c = (Ok tt, c1) ∧
    sl_client c1 = sl_client c ∧ written c1 = written c ∧
    (∀ sl_ev prefix s1 s2,
       match o_user sl_ev with
       | Some uid => ∃ u, get_user uid (sl_client c) = (Ok u, s1)
       | None => s1 = sl_client c
       end →
       get_channel (o_channel sl_ev) s1 = (Ok ch, s2) →
       _message sl_ev prefix c1 = (Ok tt, set_sl_client s2 c1)) ∧
    (∀ uid cid joined u s1 s2,
       get_user uid (sl_client c) = (Ok u, s1) →
       get_channel cid s1 = (Ok ch, s2) →
       (_joined_parted uid cid joined c1).1 = Ok tt ∧
       written (_joined_parted uid cid joined c1).2 = written c).
Proof.
  intros Hsplit. unfold _parthandler. rewrite Hsplit.
  eexists. split; [reflexivity|]. split; [by destruct c|]. split; [by destruct c|].
  assert (("#" +:+ ch_name ch)
            ∈ parted_channels
                (set_parted_channels ({["#" +:+ ch_name ch]} ∪ parted_channels c) c))
    as Hin by (tidy; destruct c; simpl; set_solver).
  assert (sl_client (set_parted_channels ({["#" +:+ ch_name ch]} ∪ parted_channels c) c)
          = sl_client c) as Hsl by (by destruct c).
  assert (written (set_parted_channels ({["#" +:+ ch_name ch]} ∪ parted_channels c) c)
          = written c) as Hwr by (by destruct c).
  set (c1 := set_parted_channels _ c) in *. clearbody c1.
  split.
  - intros sl_ev prefix s1 s2 Hsrc Hch.
    unfold _message. munfold. cunfold.
    destruct (o_user sl_ev) as [uid|].
    + destruct Hsrc as (u & Hu). simpl. rewrite Hsl, Hu. simpl. rewrite Hch. simpl.
      by rewrite decide_True by (by destruct c1).
    + subst s1. simpl. rewrite Hsl, Hch. simpl.
      by rewrite decide_True by (by destruct c1).
  - intros uid cid joined u s1 s2 Hu Hch.
    unfold _joined_parted. munfold. cunfold. simpl. rewrite Hsl, Hu. simpl.
    destruct (deleted u).
    + split; [done|]. by destruct c1.
    + simpl. rewrite Hch. simpl.
      rewrite decide_True by (by destruct c1).
      split; [done|]. by destruct c1.
Qed.

(** X23.  A notice that a user joined or left a channel is written at
    most once and only for a user who is not deactivated; the real name
    in it has every space replaced by an underscore, so that the prefix
    stays one token. *)
Theorem joined_parted_notice (uid cid : string) (joined : bool) (u : User)
    (ch : Channel) (c : Client) (s1 s2 : Slack) :
  get_user uid (sl_client c) = (Ok u, s1) →
  get_channel cid s1 = (Ok ch, s2) →
  ("#" +:+ ch_name ch) ∉ parted_channels c →
  ∃ rname,
    contains_char " " rname = false ∧
    String.length rname = String.length (real_name u) ∧
    (_joined_parted uid cid joined c).1 = Ok tt ∧
    written (_joined_parted uid cid joined c).2
    = written c ++
        (if deleted u then []
         else if joined then [UserJoin (u_name u) rname ("#" +:+ ch_name ch)]
         else [UserPart (u_name u) rname ("#" +:+ ch_name ch)]).
Proof.
  intros Hu Hch Hpart. exists (spaces_to_underscores (real_name u)).
  split; [|split].
  - clear. induction (real_name u) as [|a r IH]; [done|].
    simpl. destruct (Ascii.eqb a " ") eqn:Ha; simpl; [exact IH|].
    by rewrite Ha.
  - clear. induction (real_name u) as [|a r IH]; [done|].
    simpl. destruct (Ascii.eqb a " "); simpl; by rewrite IH.
  - unfold _joined_parted. munfold. cunfold. simpl. rewrite Hu. simpl.
    destruct (deleted u).
    + simpl. split; [done|]. by rewrite app_nil_r.
    + simpl. rewrite Hch. simpl. rewrite decide_False by done.
      by destruct joined.
Qed.

(** ** Commands that act on the workspace *)



(** X25.  AWAY sets the presence to away exactly when the line holds a
    space, and to automatic otherwise.  Unlike the moderation commands it
    does not catch a failure: when the request is refused or cannot be
    sent the handler raises and writes nothing; otherwise it writes one
    numeric, now-away or no-longer-away. *)
Theorem away_toggle (cmd : string) (c : Client) :
  let is_away := contains_char " " cmd in
  let req := ReqSetPresence (if is_away then "away" else "auto") in
  calls (sl_client (_awayhandler cmd c).2) = calls (sl_client c) ++ [req] ∧
  if accepted remote (sl_client c) req then
    (_awayhandler cmd c).1 = Ok tt ∧
    written (_awayhandler cmd c).2
    = written c ++
        [Reply (hostname c) (if is_away then RPL_NOWAWAY else RPL_UNAWAY) [nick c]
           "Away status changed"]
  else
    (∃ e, (_awayhandler cmd c).1 = Raise e) ∧
    written (_awayhandler cmd c).2 = written c.
Proof.
  intros is_away req. subst is_away req.
  unfold _awayhandler, away, accepted, api_call. munfold. cunfold. simpl.
  destruct (remote _ _) as [r|]; simpl.
  - destruct (ok r); simpl; [done|]. split; [done|]. split; [by eexists|done].
  - split; [done|]. split; [by eexists|done].
Qed.

Lemma replies_loop {A} (code : Z) (msg : A → string) (toks : A → list string)
    (l : list A) (c : Client) :
  for_each l (λ x, _sendreply code (msg x) (toks x)) c
  = (Ok tt,
     set_written
       (written c ++ ((λ x, Reply (hostname c) code (nick c :: toks x) (msg x)) <$> l)) c).
Proof.
  revert c. induction l as [|x l IH]; intros c.
  - simpl. rewrite app_nil_r. by destruct c.
  - simpl. unfold mbind at 1, M_bind at 1. unfold _sendreply at 1. munfold. cunfold.
    simpl. rewrite IH. simpl. by rewrite <- app_assoc.
Qed.

(** X26.  LIST never answers from the cached channel list: it always asks
    the workspace again, replaces the cached list by the answer, and
    writes one list numeric per channel of the answer, in the order of
    the answer, followed by the end-of-list numeric. *)
Theorem list_refreshes (cmd : string) (c : Client) (r : Resp) (l : list Channel) :
  remote (length (calls (sl_client c))) (ReqList "public_channel,private_channel,mpim")
  = Some r →
  ok r = true →
  body r = BChannels l →
  ∃ c',
    _listhandler cmd c = (Ok tt, c') ∧
    calls (sl_client c')
    = calls (sl_client c) ++ [ReqList "public_channel,private_channel,mpim"] ∧
    _channelscache (sl_client c') = l ∧
    written c'
    = written c ++
        ((λ ch, Reply (hostname c) RPL_LIST
                  [nick c; "#" +:+ ch_name ch; pretty (num_members ch)] (real_topic ch))
           <$> l) ++
        [Reply (hostname c) RPL_LISTEND [nick c] "End of LIST"].
Proof.
  intros Hr Hok Hbody. unfold _listhandler.
  unfold mbind at 1, M_bind at 1, slack at 1, lift at 1.
  assert (channels true (sl_client c)
          = (Ok l, set_channelscache l
                     (set_calls (calls (sl_client c)
                                   ++ [ReqList "public_channel,private_channel,mpim"])
                        (set_channelscache [] (sl_client c))))) as ->.
  { unfold channels, _channels, api_call. munfold. simpl.
    rewrite Hr. simpl. rewrite Hok, Hbody. done. }
  cbv beta iota. unfold mbind at 1, M_bind at 1.
  rewrite replies_loop. cbv beta iota.
  eexists. split; [reflexivity|].
  destruct c; simpl. by rewrite <- app_assoc.
Qed.


(** ** Queries *)

(** X27.  WHOIS for a nickname of the name cache answers from the cache
    alone.  The complaints about several targets and about a wildcard are
    written first and do not stop the answer: the user line follows, then
    the e-mail line when the profile has a non-empty address, then the
    operator line for an administrator, and the end marker last. *)
Theorem whois_resolved (cmd username_ : string) (u : User) (c : Client) :
  last (drop 1 (split_all " " cmd)) = Some username_ →
  _usermapcache (sl_client c) !! username_ = Some u →
  let reply code toks msg := Reply (hostname c) code (nick c :: toks) msg in
  _whoishandler cmd c
  = (Ok tt,
     set_written
       (written c ++
          (if decide (1 < length (drop 1 (split_all " " cmd)))%nat
           then [reply ERR_UNKNOWNCOMMAND [] "Server parameter is not supported"]
           else []) ++
          (if contains_char "*" username_
           then [reply ERR_UNKNOWNCOMMAND [] "Wildcards are not supported"]
           else []) ++
          [reply RPL_WHOISUSER [username_; ""; "localhost"] (real_name u)] ++
          (match email (profile u) with
           | Some e =>
               if decide (e = "") then []
               else [reply RPL_WHOISUSER [username_; ""; "localhost"] ("email: " +:+ e)]
           | None => []
           end) ++
          (if is_admin u
           then [reply RPL_WHOISOPERATOR [username_] (username_ +:+ " is an IRC operator")]
           else []) ++
          [reply RPL_ENDOFWHOIS [username_] ""])
       c).
Proof.
  intros Hlast Hu reply. subst reply.
  unfold _whoishandler, get_user_by_name. cunfold. munfold. simpl.
  rewrite Hlast.
  destruct (decide (1 < length (drop 1 (split_all " " cmd)))%nat); simpl;
    destruct (contains_char "*" username_); simpl; rewrite Hu; simpl;
    (destruct (email (profile u)) as [e|]; [destruct (decide (e = ""))|]); simpl;
    destruct (is_admin u); simpl;
    destruct c; simpl; repeat rewrite <- app_assoc; reflexivity.
Qed.





(** ** The reader loop *)

Lemma from_irc_app (now : Z) (l1 l2 : list string) (c : Client) :
  from_irc now (l1 ++ l2) c
  = match from_irc now l1 c with
    | (Ok _, c1) => from_irc now l2 c1
    | r => r
    end.
Proof.
  unfold from_irc. revert c. induction l1 as [|x l1 IH]; intros c; [done|].
  simpl. unfold mbind, M_bind.
  destruct (command now (strip x) c) as [[[]|e|] c1]; [apply IH|done|done].
Qed.

(** X30.  The reader loop handles the lines in the order received and
    stops at the first command that fails; what the earlier lines wrote
    stays written and no later line is looked at.  QUIT is such a command:
    the loop ends with [IrcDisconnectError] in the state the lines before
    it produced, whatever follows. *)
Theorem reader_stops_at_failure (now : Z) (before after : list string)
    (line : string) (c c1 : Client) :
  from_irc now before c = (Ok tt, c1) →
  (∀ e c2,
     command now (strip line) c1 = (Raise e, c2) →
     from_irc now (before ++ line :: after) c = (Raise e, c2)) ∧
  (command_token (strip line) = "QUIT" →
   from_irc now (before ++ line :: after) c = (Raise IrcDisconnectError, c1)).
Proof.
  intros Hbefore.
  assert (∀ e c2,
            command now (strip line) c1 = (Raise e, c2) →
            from_irc now (before ++ line :: after) c = (Raise e, c2)) as Hstop.
  { intros e c2 Hline. rewrite from_irc_app, Hbefore.
    unfold from_irc. simpl. unfold mbind, M_bind. by rewrite Hline. }
  split; [exact Hstop|].
  intros Hquit. apply Hstop.
  unfold command. fold (command_token (strip line)). rewrite Hquit.
  repeat (rewrite decide_False by done). by rewrite decide_True.
Qed.

End Gateway.

(** * The properties on the example workspace *)

(** ** Membership pagination *)

(** Two pages are fetched for C1, then the cursor is exhausted: the third
    call answers from the cache; the first call, on a fresh state, is a
    fetch without a cursor. *)
Lemma get_members_pagination_witness :
  let r := demo_remote [] in
  let s2 := (get_members r "C1" (get_members r "C1" Slack_init).2).2 in
  (mjoin (_get_members_cache_cursor s2 !! "C1") = Some "" ∧
   get_members r "C1" s2 = (Ok (default ∅ (_get_members_cache s2 !! "C1")), s2)) ∧
  (mjoin (_get_members_cache_cursor Slack_init !! "C1") ≠ Some "" ∧
   r (length (calls Slack_init)) (ReqMembers "C1" None)
     = Some (mkResp true (BMembers ["U1"; "U2"] (Some "page2"))) ∧
   (get_members r "C1" Slack_init).1 = Ok (∅ ∪ list_to_set ["U1"; "U2"])).
Proof.
  intros r s2. split.
  - split; [vm_compute; reflexivity|].
    destruct (get_members_pagination r "C1" s2) as [Hdone _].
    apply Hdone. vm_compute. reflexivity.
  - split; [vm_compute; discriminate|]. split; [reflexivity|].
    destruct (get_members_pagination r "C1" Slack_init) as [_ Hpage].
    destruct (Hpage ltac:(vm_compute; discriminate) ["U1"; "U2"] (Some "page2")
                eq_refl) as [Hrun _].
    rewrite Hrun. reflexivity.
Defined.

(** C5, as stated, fails.  The first reply for C1 carries no next cursor,
    so the stored cursor is absent and the second fetch asks for the first
    page again; C1 has a cache entry by then, and the member U2 that this
    first page newly lists is announced by a join event. *)
Lemma first_page_again_counterexample :
  let s1 := (get_members demo_unpaged "C1" Slack_init).2 in
  let run := get_members demo_unpaged "C1" s1 in
  (mjoin (_get_members_cache_cursor s1 !! "C1") = None ∧ _internalevents s1 = []) ∧
  calls run.2 = [ReqMembers "C1" None; ReqMembers "C1" None] ∧
  run.1 = Ok (list_to_set ["U1"; "U2"]) ∧
  _internalevents run.2 = [Join "U2" "C1"].
Proof.
  intros s1 run. split; [split; vm_compute; reflexivity|].
  repeat split; vm_compute; reflexivity.
Defined.

(** ** Reconnection *)

(** Three failed reconnections in a row: three delays of 1. *)
Lemma backoff_delay_constant_witness :
  _internalevents Slack_init = [] ∧
  (∀ k, remote_down k ReqRtmRead = None ∧ remote_down k ReqRtmConnect = None) ∧
  slept (events_n remote_down 5 0 3 Slack_init).2 = [1; 1; 1].
Proof.
  split; [reflexivity|]. split; [intros k; split; reflexivity|].
  apply (backoff_delay_constant remote_down 5 0 3 Slack_init).
  - reflexivity.
  - intros k. split; reflexivity.
Defined.

(** ** WHOIS *)

(** [whois ghost] when no user is called ghost. *)
Lemma whois_unresolved_witness :
  drop 1 (split_all " " "whois ghost") = ["ghost"] ∧
  contains_char "*" "ghost" = false ∧
  _usermapcache (sl_client demo_registered) !! "ghost" = None ∧
  _whoishandler "whois ghost" demo_registered =
    (Raise UnboundLocalError,
     set_written [Reply "gw" ERR_NOSUCHNICK ["alice"] "Unknown user ghost"]
       demo_registered).
Proof.
  split; [reflexivity|]. split; [reflexivity|]. split; [vm_compute; reflexivity|].
  apply (whois_unresolved_no_end_marker "whois ghost" "ghost" demo_registered).
  - reflexivity.
  - reflexivity.
  - vm_compute. reflexivity.
Defined.

(** ** JOIN *)



(** ** Registration *)



(** ** The held-event queue *)


(** ** Messages of unresolved channels *)



(** ** Failures that leave their handler *)

(** C8.  [PRIVMSG #nochan :hi], when no channel is called nochan, raises
    [KeyError] out of [command] and out of the loop of [from_irc]: the
    line that follows is never handled, where the same command to an
    unknown user is caught and the loop goes on.  On the event side, a
    live join event for a channel without membership cache raises
    [KeyError] out of [event]. *)
Theorem uncaught_failures :
  let r := demo_remote [] in
  let run cmds := from_irc r demo_readable demo_magic demo_text demo_diff demo_str 0 cmds
                    demo_registered in
  ((run ["PRIVMSG #nochan :hi"; "PING 1"]).1 = Raise KeyError ∧
   written (run ["PRIVMSG #nochan :hi"; "PING 1"]).2 = []) ∧
  ((run ["PRIVMSG nobody :hi"; "PING 1"]).1 = Ok tt ∧
   written (run ["PRIVMSG nobody :hi"; "PING 1"]).2 = [Pong "gw" "1"]) ∧
  (event (demo_stream [demo_raw_join]) 5 0 Slack_init).1 = Raise KeyError.
Proof. vm_compute. repeat split; reflexivity. Qed.

(** ** Order of delivery *)

(** A page of C1, newest first, whose middle entry opens a thread. *)
Lemma queued_events_order_witness :
  let r := demo_remote [demo_later; demo_root; demo_older] in
  let s := set_last_timestamp 10 Slack_init in
  (Forall (λ m, opens_thread m = false)
     ([demo_later] ++ [demo_reply1; demo_reply2] ++ [demo_older]) ∧
   opens_thread demo_root = true ∧
   h_ts demo_root ≠ 10 ∧
   r (length (calls s)) (ReqReplies "C1" (h_ts demo_root) None)
     = Some (mkResp true (BHistory (demo_root :: [demo_reply1; demo_reply2]) false None)) ∧
   (length [demo_later] + length [demo_reply1; demo_reply2] + length [demo_older] + 3
      ≤ 10)%nat) ∧
  rev (_internalevents
         (history_msgs r 10 "C1" 10 ([demo_later] ++ demo_root :: [demo_older]) s).2)
  = [ Msg (mkMessage "C1" "U2" "older");
      Msg (mkMessage "C1" "U1" "root");
      Msg (mkMessage "C1" "U3" "first reply");
      Msg (mkMessage "C1" "U3" "second reply");
      Msg (mkMessage "C1" "U2" "later") ].
Proof.
  intros r s.
  assert (Forall (λ m, opens_thread m = false)
            ([demo_later] ++ [demo_reply1; demo_reply2] ++ [demo_older])) as Hplain
    by (repeat constructor).
  assert (h_ts demo_root ≠ 10) as Hne by (simpl; lia).
  assert ((length [demo_later] + length [demo_reply1; demo_reply2]
           + length [demo_older] + 3 ≤ 10)%nat) as Hfuel by (simpl; lia).
  split; [repeat split; done|].
  destruct (queued_events_order r 10 0 "C1" 10 [demo_later] [demo_older]
              [demo_reply1; demo_reply2] demo_root demo_root s) as [_ Hsplice].
  destruct (Hsplice Hplain eq_refl Hne eq_refl Hfuel) as (s' & Hrun & Horder).
  rewrite Hrun. simpl. rewrite Horder. reflexivity.
Defined.

(** C1, as stated, fails.  A reconnection backfills a page of two plain
    messages, no thread involved: they are queued in page order and
    handed out in the opposite order, so delivery is not first-in
    first-out. *)
Lemma fifo_counterexample :
  let r := demo_remote [demo_later; demo_older] in
  let s1 := (event r 10 0 (set_last_timestamp 10 Slack_init)).2 in
  let queued := [ Msg (mkMessage "C1" "U2" "later");
                  Msg (mkMessage "C1" "U2" "older") ] in
  _internalevents s1 = queued ∧
  (events_n r 10 0 2 s1).1 = Ok (Some <$> rev queued) ∧
  (events_n r 10 0 2 s1).1 ≠ Ok (Some <$> queued).
Proof.
  intros r s1 queued. split; [vm_compute; reflexivity|].
  split; [vm_compute; reflexivity|]. vm_compute. discriminate.
Defined.

(** ** Self-echo suppression *)


(** * The further properties on the example workspace *)

(** ** Lines and fields *)

(** [PING] has no space: it is its own single field. *)
Lemma split_join_round_trip_witness :
  contains_char " " "PING" = false ∧ split_char " " 1 "PING" = ["PING"].
Proof.
  split; [reflexivity|].
  destruct (split_join_round_trip " " 1 "PING") as (_ & _ & Hone).
  apply Hone. reflexivity.
Defined.

(** ** Channel and user lookups *)

(** C1 is in the cached list; no channel has the id C9. *)
Lemma channel_lookups_witness :
  (find (λ c, bool_decide (ch_id c = "C1")) (_channelscache demo_listed)
   = Some demo_general ∧
   get_channel demo_office "C1" demo_listed = (Ok demo_general, demo_listed)) ∧
  (let run := get_channel demo_office "C9" demo_listed in
   run.1 = Raise KeyError ∧ ∀ c, c ∈ _channelscache run.2 → ch_id c ≠ "C9").
Proof.
  split.
  - split; [reflexivity|].
    destruct (channel_lookups demo_office "C1" demo_listed) as (Hhit & _).
    apply Hhit. reflexivity.
  - intros run. split; [vm_compute; reflexivity|].
    destruct (channel_lookups demo_office "C9" demo_listed)
      as (_ & _ & _ & _ & Hmiss & _).
    apply (Hmiss KeyError run.2). vm_compute. reflexivity.
Defined.

(** A filled cache answers; a refresh asks again, and loses the list when
    the remote is down. *)
Lemma channels_cache_witness :
  (_channelscache demo_listed ≠ [] ∧
   channels demo_office false demo_listed
   = (Ok [demo_general; demo_random], demo_listed)) ∧
  calls (channels demo_office true demo_listed).2
  = calls demo_listed ++ [list_channels] ∧
  ((channels remote_down true demo_listed).1 = Raise TransportError ∧
   _channelscache (channels remote_down true demo_listed).2 = []).
Proof.
  split; [|split].
  - split; [discriminate|].
    destruct (channels_cache demo_office false demo_listed) as (Hhit & _).
    apply Hhit. discriminate.
  - destruct (channels_cache demo_office true demo_listed) as (_ & Hask & _).
    apply Hask. by left.
  - split; [vm_compute; reflexivity|].
    destruct (channels_cache remote_down true demo_listed) as (_ & _ & Hlost).
    apply (Hlost TransportError). vm_compute. reflexivity.
Defined.

(** carol is fetched once and cached under both keys; the unknown U9 is
    not, and the caches stay as they were. *)
Lemma get_user_caches_witness :
  let s' := (get_user demo_office "U3" demo_slack).2 in
  (get_user demo_office "U3" demo_slack = (Ok demo_carol, s') ∧
   _usercache demo_slack !! "U3" = None ∧
   get_user demo_office "U3" s' = (Ok demo_carol, s') ∧
   get_user_by_name "carol" s' = (Ok demo_carol, s')) ∧
  ((get_user demo_office "U9" demo_slack).1 = Raise TransportError ∧
   same_users demo_slack (get_user demo_office "U9" demo_slack).2).
Proof.
  intros s'. split.
  - destruct (get_user_caches demo_office "U3" demo_slack) as (Hok & _).
    destruct (Hok demo_carol s') as (_ & Hagain & Hname);
      [vm_compute; reflexivity|].
    split; [vm_compute; reflexivity|]. split; [vm_compute; reflexivity|].
    split; [exact Hagain|]. apply Hname. vm_compute. reflexivity.
  - split; [vm_compute; reflexivity|].
    destruct (get_user_caches demo_office "U9" demo_slack) as (_ & Hfail).
    apply (Hfail TransportError). vm_compute. reflexivity.
Defined.

(** The directory of [demo_office] lists bob and carol; a refused
    directory request is passed over. *)
Lemma prefetch_then_get_user_witness :
  (demo_office (length (calls Slack_init)) ReqUsersList
   = Some (mkResp true (BUsers [demo_bob; demo_carol])) ∧
   (prefetch_users demo_office Slack_init).1 = Ok tt ∧
   ∃ u', u' ∈ [demo_bob; demo_carol] ∧ u_id u' = "U3" ∧
         get_user demo_office "U3" (prefetch_users demo_office Slack_init).2
         = (Ok u', (prefetch_users demo_office Slack_init).2)) ∧
  (demo_refusing (length (calls Slack_init)) ReqUsersList = Some (mkResp false BNone) ∧
   prefetch_users demo_refusing Slack_init
   = (Ok tt, set_calls (calls Slack_init ++ [ReqUsersList]) Slack_init)).
Proof.
  split.
  - split; [reflexivity|].
    destruct (prefetch_then_get_user demo_office Slack_init
                (mkResp true (BUsers [demo_bob; demo_carol])) eq_refl) as (Hok & _).
    destruct (Hok [demo_bob; demo_carol] eq_refl eq_refl) as (Hrun & Hall).
    split; [exact Hrun|]. apply (Hall demo_carol). set_solver.
  - split; [reflexivity|].
    destruct (prefetch_then_get_user demo_refusing Slack_init (mkResp false BNone)
                eq_refl) as (_ & Hno).
    apply Hno. reflexivity.
Defined.

(** The caches of [demo_slack] are consistent, and bob, cached by id,
    resolves by name. *)
Lemma user_caches_consistent_witness :
  users_consistent demo_slack ∧
  users_consistent (get_user demo_office "U3" demo_slack).2 ∧
  users_consistent (prefetch_users demo_office demo_slack).2 ∧
  users_consistent (event (demo_stream [demo_raw_join]) 5 0 demo_slack).2 ∧
  ∃ u', get_user_by_name "bob" demo_slack = (Ok u', demo_slack) ∧ u_name u' = "bob".
Proof.
  assert (users_consistent demo_slack) as Hdemo.
  { split.
    - intros n u Hn.
      change (_usermapcache demo_slack) with ({["bob" := demo_bob]} : gmap string User)
        in Hn.
      by apply lookup_singleton_Some in Hn as [<- <-].
    - intros i u Hi.
      change (_usercache demo_slack) with ({["U2" := demo_bob]} : gmap string User)
        in Hi.
      apply lookup_singleton_Some in Hi as [<- <-]. by eexists. }
  split; [exact Hdemo|].
  destruct (user_caches_consistent demo_office 5 0 "U3" demo_slack) as (_ & Hget).
  destruct (Hget Hdemo) as (H1 & H2 & _ & _).
  destruct (user_caches_consistent (demo_stream [demo_raw_join]) 5 0 "U2" demo_slack)
    as (_ & Hev).
  destruct (Hev Hdemo) as (_ & _ & H3 & H4).
  split; [exact H1|]. split; [exact H2|]. split; [exact H3|].
  apply (H4 demo_bob). vm_compute. reflexivity.
Defined.

(** ** History *)

(** A page of two plain entries, the older one repeating the last seen
    timestamp 15. *)
Lemma history_page_plain_witness :
  Forall (λ m, opens_thread m = false) [demo_later; demo_older] ∧
  (length [demo_later; demo_older] < 5)%nat ∧
  ∃ s',
    history_msgs demo_office 5 "C1" 15 [demo_later; demo_older] demo_slack
    = (Ok tt, s') ∧
    calls s' = calls demo_slack ∧
    _internalevents s' = [Msg (mkMessage "C1" "U2" "later")] ∧
    last_timestamp (_status s') = 30.
Proof.
  assert (Forall (λ m, opens_thread m = false) [demo_later; demo_older]) as Hplain
    by (repeat constructor).
  assert (length [demo_later; demo_older] < 5)%nat as Hfuel by (simpl; lia).
  split; [exact Hplain|]. split; [exact Hfuel|].
  destruct (history_page_plain demo_office 5 "C1" 15 [demo_later; demo_older]
              demo_slack Hplain Hfuel) as (s' & Hrun & Hcalls & Hev & Hts & _).
  exists s'. split; [exact Hrun|]. split; [exact Hcalls|].
  split; [rewrite Hev; reflexivity|rewrite Hts; reflexivity].
Defined.

(** The replies of the thread opened at 20 cannot be read. *)
Lemma history_thread_unreadable_witness :
  let run := history_msgs demo_refusing 2 "C1" 15 [demo_root; demo_older] demo_slack in
  (opens_thread demo_root = true ∧ h_ts demo_root ≠ 15 ∧
   demo_refusing (length (calls demo_slack)) (ReqReplies "C1" (h_ts demo_root) None)
   = Some (mkResp false BNone) ∧
   load_History (mkResp false BNone) = None) ∧
  run.1 = Raise IndexError ∧
  _internalevents run.2 = [] ∧
  calls run.2 = [ReqReplies "C1" 20 None].
Proof.
  intros run.
  assert (h_ts demo_root ≠ 15) as Hts by (simpl; lia).
  split; [by repeat split|].
  destruct (history_thread_unreadable demo_refusing 0 "C1" 15 demo_root [demo_older]
              demo_slack (mkResp false BNone) eq_refl Hts eq_refl eq_refl)
    as (Hrun & Hev & Hcalls).
  split; [exact Hrun|]. split; [exact Hev|exact Hcalls].
Defined.

(** ** One event per batch *)

(** A batch of a topic change followed by a join: the topic change is
    returned, the join is not queued. *)
Lemma event_batch_first_only_witness :
  let r := demo_stream [demo_raw_topic; demo_raw_join] in
  (_internalevents demo_slack = [] ∧
   r (length (calls demo_slack)) ReqRtmRead
   = Some (mkResp true (BEvents [demo_raw_topic; demo_raw_join])) ∧
   (default 0 (r_ts demo_raw_topic) ∉ _sent_by_self demo_slack) ∧
   is_useless (r_type demo_raw_topic) = false ∧
   load_typed demo_raw_topic = Some (TopicChange "new topic" "C1" "U2")) ∧
  (event r 5 0 demo_slack).1 = Ok (Some (TopicChange "new topic" "C1" "U2")) ∧
  _internalevents (event r 5 0 demo_slack).2 = [].
Proof.
  intros r.
  assert (default 0 (r_ts demo_raw_topic) ∉ _sent_by_self demo_slack) as Hsent
    by apply not_elem_of_empty.
  split; [by repeat split|].
  rewrite (event_batch_first_only r 5 0 demo_raw_topic [demo_raw_join]
             (TopicChange "new topic" "C1" "U2") demo_slack eq_refl eq_refl Hsent
             eq_refl eq_refl ltac:(intros u c; split; discriminate)).
  split; reflexivity.
Defined.

(** ** Direct-message channels and sending *)

(** C1 is no conversation id; D2 is the conversation with U2. *)
Lemma get_im_answer_witness :
  (String.prefix "D" "C1" = false ∧
   get_im demo_office "C1" demo_slack = (Ok None, demo_slack)) ∧
  (let run := get_im demo_office "D2" demo_slack in
   run.1 = Ok (Some (mkIM "D2" "U2")) ∧ _imcache run.2 !! "U2" = Some "D2").
Proof.
  split.
  - split; [reflexivity|].
    destruct (get_im_answer demo_office "C1" demo_slack) as (Hno & _).
    apply Hno. reflexivity.
  - intros run. split; [vm_compute; reflexivity|].
    destruct (get_im_answer demo_office "D2" demo_slack) as (_ & Hyes).
    destruct (Hyes (mkIM "D2" "U2") run.2) as (_ & Hcache);
      [vm_compute; reflexivity|exact Hcache].
Defined.

(** A post that is accepted with the timestamp 42, and one that cannot be
    sent. *)
Lemma send_message_outcome_witness :
  (let run := send_message demo_office "C1" "hi" false demo_slack in
   run.1 = Ok tt ∧
   ∃ ts, ts ≠ 0 ∧ _sent_by_self run.2 = {[ts]} ∪ _sent_by_self demo_slack) ∧
  (let run := send_message remote_down "C1" "hi" false demo_slack in
   run.1 ≠ Ok tt ∧ _sent_by_self run.2 = _sent_by_self demo_slack).
Proof.
  split.
  - intros run. split; [vm_compute; reflexivity|].
    destruct (send_message_outcome demo_office "C1" "hi" false demo_slack)
      as (_ & Hok & _).
    destruct Hok as (ts & Hts & _ & Hsent); [vm_compute; reflexivity|].
    by exists ts.
  - intros run. split; [vm_compute; discriminate|].
    destruct (send_message_outcome remote_down "C1" "hi" false demo_slack)
      as (_ & _ & Hfail).
    apply Hfail. vm_compute. discriminate.
Defined.

(** With the conversation D2 cached for U2, and starting without it. *)
Lemma send_message_to_user_cache_witness :
  (_imcache demo_chatting !! "U2" = Some "D2" ∧
   send_message_to_user demo_office "U2" "hi" false demo_chatting
   = send_message demo_office "D2" "hi" false demo_chatting) ∧
  (let run := send_message_to_user demo_office "U2" "hi" false demo_chatting in
   run.1 = Ok tt ∧ is_Some (_imcache run.2 !! "U2")).
Proof.
  split.
  - split; [vm_compute; reflexivity|].
    destruct (send_message_to_user_cache demo_office "U2" "hi" false demo_chatting)
      as (Hcached & _).
    apply Hcached. vm_compute. reflexivity.
  - intros run. split; [vm_compute; reflexivity|].
    destruct (send_message_to_user_cache demo_office "U2" "hi" false demo_chatting)
      as (_ & Hafter).
    apply (Hafter run.2). vm_compute. reflexivity.
Defined.

(** ** The command interpreter *)

(** [CAP LS] is not in the dispatch table. *)
Lemma unknown_command_witness :
  (command_token "CAP LS" ∉ known_commands) ∧
  command (demo_remote []) demo_readable demo_magic demo_text demo_diff demo_str 0 "CAP LS"
    demo_registered
  = (Ok tt,
     set_written [Reply "gw" ERR_UNKNOWNCOMMAND ["alice"; "CAP"] "Unknown command"]
       demo_registered).
Proof.
  assert (command_token "CAP LS" ∉ known_commands) as Hnew
    by (apply (bool_decide_unpack _); vm_compute; exact I).
  split; [exact Hnew|].
  apply (unknown_command (demo_remote []) demo_readable demo_magic demo_text
           demo_diff demo_str 0 "CAP LS" demo_registered Hnew).
Defined.

(** [JOIN], [TOPIC #general] and [KICK #general bob] lack a field. *)
Lemma short_command_raises_witness :
  let r := demo_remote [] in
  ((length (split_space 1 "JOIN") < 2)%nat ∧
   _joinhandler r "JOIN" demo_registered = (Raise ValueError, demo_registered)) ∧
  ((length (split_space 2 "TOPIC #general") < 3)%nat ∧
   _topichandler r "TOPIC #general" demo_registered
   = (Raise ValueError, demo_registered)) ∧
  ((length (split_space 3 "KICK #general bob") < 4)%nat ∧
   _kickhandler r demo_str "KICK #general bob" demo_registered
   = (Raise ValueError, demo_registered)).
Proof.
  intros r.
  assert (length (split_space 1 "JOIN") < 2)%nat as H1 by (vm_compute; lia).
  assert (length (split_space 2 "TOPIC #general") < 3)%nat as H2 by (vm_compute; lia).
  assert (length (split_space 3 "KICK #general bob") < 4)%nat as H3
    by (vm_compute; lia).
  split; [|split].
  - split; [exact H1|].
    destruct (short_command_raises r demo_magic demo_str "JOIN" demo_registered) as (Hs & _).
    destruct (Hs H1) as (_ & _ & Hjoin & _). exact Hjoin.
  - split; [exact H2|].
    destruct (short_command_raises r demo_magic demo_str "TOPIC #general" demo_registered)
      as (_ & Hs & _).
    destruct (Hs H2) as (_ & Htopic & _). exact Htopic.
  - split; [exact H3|].
    destruct (short_command_raises r demo_magic demo_str "KICK #general bob" demo_registered)
      as (_ & _ & Hs).
    exact (Hs H3).
Defined.

(** [NICK mallory] on the account of alice. *)
Lemma nick_is_stored_witness :
  split_space 1 "NICK mallory" = ["NICK"; "mallory"] ∧
  login_info (sl_client demo_registered) = Some demo_info ∧
  _nickhandler "NICK mallory" demo_registered
  = (Ok tt,
     set_written
       [Reply "gw" ERR_ERRONEUSNICKNAME ["mallory"] "Incorrect nickname, use alice"]
       (set_nick "mallory" demo_registered)).
Proof.
  split; [reflexivity|]. split; [reflexivity|].
  rewrite (nick_is_stored "NICK mallory" "NICK" "mallory" demo_info demo_registered
             eq_refl eq_refl).
  reflexivity.
Defined.

(** ** Delivery of messages and of join and leave notices *)

(** Two lines of bob in general. *)
Lemma known_channel_message_witness :
  let sl_ev := mkOutgoing (Some "U2") "C1" ("hello" +:+ String "010" "world") false in
  (get_user demo_office "U2" (sl_client demo_listed_client) = (Ok demo_bob, demo_listed) ∧
   get_channel demo_office "C1" demo_listed = (Ok demo_general, demo_listed) ∧
   ("#" +:+ ch_name demo_general) ∉ parted_channels demo_listed_client) ∧
  ∃ c' texts,
    _message demo_office demo_text sl_ev "" demo_listed_client = (Ok tt, c') ∧
    written c' = Privmsg "bob" "#general" <$> texts ∧
    length texts = 2%nat.
Proof.
  intros sl_ev.
  assert (get_user demo_office "U2" (sl_client demo_listed_client)
          = (Ok demo_bob, demo_listed)) as Hu by (vm_compute; reflexivity).
  assert (get_channel demo_office "C1" demo_listed = (Ok demo_general, demo_listed))
    as Hc by (vm_compute; reflexivity).
  assert (("#" +:+ ch_name demo_general) ∉ parted_channels demo_listed_client) as Hn
    by apply not_elem_of_empty.
  split; [done|].
  destruct (known_channel_message demo_office demo_text sl_ev "" "bob" demo_general
              demo_listed_client demo_listed demo_listed) as (c' & texts & Hrun & Hw & Hall).
  - exists demo_bob. split; [exact Hu|reflexivity].
  - exact Hc.
  - exact Hn.
  - intros n t s. exists t. reflexivity.
  - exists c', texts. split; [exact Hrun|]. split; [exact Hw|].
    apply Forall2_length in Hall. rewrite <- Hall. vm_compute. reflexivity.
Defined.

(** After [PART #general], a message of bob in general and the notice
    that bob left it write nothing. *)
Lemma part_silences_witness :
  let sl_ev := mkOutgoing (Some "U2") "C1" "hello" false in
  split_space 1 "PART #general" = ["PART"; "#" +:+ ch_name demo_general] ∧
  get_user demo_office "U2" (sl_client demo_listed_client) = (Ok demo_bob, demo_listed) ∧
  get_channel demo_office "C1" demo_listed = (Ok demo_general, demo_listed) ∧
  ∃ c1,
    _parthandler "PART #general" demo_listed_client = (Ok tt, c1) ∧
    _message demo_office demo_text sl_ev "" c1 = (Ok tt, set_sl_client demo_listed c1) ∧
    written (_joined_parted demo_office "U2" "C1" false c1).2 = [].
Proof.
  intros sl_ev.
  assert (get_user demo_office "U2" (sl_client demo_listed_client)
          = (Ok demo_bob, demo_listed)) as Hu by (vm_compute; reflexivity).
  assert (get_channel demo_office "C1" demo_listed = (Ok demo_general, demo_listed))
    as Hc by (vm_compute; reflexivity).
  split; [reflexivity|]. split; [exact Hu|]. split; [exact Hc|].
  destruct (part_silences demo_office demo_text "PART #general" "PART" demo_general
              demo_listed_client eq_refl) as (c1 & Hpart & _ & _ & Hmsg & Hnotice).
  exists c1. split; [exact Hpart|]. split.
  - apply (Hmsg sl_ev "" demo_listed demo_listed); [by exists demo_bob|exact Hc].
  - destruct (Hnotice "U2" "C1" false demo_bob demo_listed demo_listed Hu Hc)
      as (_ & Hw). exact Hw.
Defined.

(** carol, whose real name has two spaces, joins general. *)
Lemma joined_parted_notice_witness :
  let s1 := (get_user demo_office "U3" (sl_client demo_listed_client)).2 in
  (get_user demo_office "U3" (sl_client demo_listed_client) = (Ok demo_carol, s1) ∧
   get_channel demo_office "C1" s1 = (Ok demo_general, s1) ∧
   ("#" +:+ ch_name demo_general) ∉ parted_channels demo_listed_client) ∧
  ∃ rname,
    contains_char " " rname = false ∧
    written (_joined_parted demo_office "U3" "C1" true demo_listed_client).2
    = [UserJoin "carol" rname "#general"].
Proof.
  intros s1.
  assert (get_user demo_office "U3" (sl_client demo_listed_client) = (Ok demo_carol, s1))
    as Hu by (vm_compute; reflexivity).
  assert (get_channel demo_office "C1" s1 = (Ok demo_general, s1)) as Hc
    by (vm_compute; reflexivity).
  assert (("#" +:+ ch_name demo_general) ∉ parted_channels demo_listed_client) as Hn
    by apply not_elem_of_empty.
  split; [done|].
  destruct (joined_parted_notice demo_office "U3" "C1" true demo_carol demo_general
              demo_listed_client s1 s1 Hu Hc Hn) as (rname & Hflat & _ & _ & Hw).
  exists rname. split; [exact Hflat|exact Hw].
Defined.

(** ** Commands that act on the workspace *)


(** LIST with a cached channel list asks again. *)
Lemma list_refreshes_witness :
  (demo_office (length (calls (sl_client demo_listed_client)))
     (ReqList "public_channel,private_channel,mpim")
   = Some (mkResp true (BChannels [demo_general; demo_random]))) ∧
  ∃ c',
    _listhandler demo_office "LIST" demo_listed_client = (Ok tt, c') ∧
    calls (sl_client c') = [ReqList "public_channel,private_channel,mpim"] ∧
    written c'
    = [Reply "gw" RPL_LIST ["alice"; "#general"; "3"] (real_topic demo_general);
       Reply "gw" RPL_LIST ["alice"; "#random"; "2"] (real_topic demo_random);
       Reply "gw" RPL_LISTEND ["alice"] "End of LIST"].
Proof.
  split; [reflexivity|].
  destruct (list_refreshes demo_office "LIST" demo_listed_client
              (mkResp true (BChannels [demo_general; demo_random]))
              [demo_general; demo_random] eq_refl eq_refl eq_refl)
    as (c' & Hrun & Hcalls & _ & Hw).
  exists c'. split; [exact Hrun|]. split; [exact Hcalls|].
  rewrite Hw. vm_compute. reflexivity.
Defined.

(** ** Queries *)

(** [whois carol] once carol is cached: she has an address and is an
    administrator. *)
Lemma whois_resolved_witness :
  let c := set_sl_client (get_user demo_office "U3" demo_slack).2 demo_registered in
  last (drop 1 (split_all " " "whois carol")) = Some "carol" ∧
  _usermapcache (sl_client c) !! "carol" = Some demo_carol ∧
  written (_whoishandler "whois carol" c).2
  = [Reply "gw" RPL_WHOISUSER ["alice"; "carol"; ""; "localhost"] "Carol Of Acme";
     Reply "gw" RPL_WHOISUSER ["alice"; "carol"; ""; "localhost"]
       "email: carol@acme.example";
     Reply "gw" RPL_WHOISOPERATOR ["alice"; "carol"] "carol is an IRC operator";
     Reply "gw" RPL_ENDOFWHOIS ["alice"; "carol"] ""].
Proof.
  intros c.
  assert (_usermapcache (sl_client c) !! "carol" = Some demo_carol) as Hu
    by (vm_compute; reflexivity).
  split; [reflexivity|]. split; [exact Hu|].
  pose proof (whois_resolved "whois carol" "carol" demo_carol c eq_refl Hu) as H.
  cbv zeta in H. rewrite H. reflexivity.
Defined.



(** ** The reader loop *)

(** [PING 1], [QUIT], [PING 2]: the second ping is never answered. *)
Lemma reader_stops_at_failure_witness :
  let run := from_irc (demo_remote []) demo_readable demo_magic demo_text demo_diff demo_str 0 in
  let c1 := (run ["PING 1"] demo_registered).2 in
  run ["PING 1"] demo_registered = (Ok tt, c1) ∧
  command_token (strip "QUIT") = "QUIT" ∧
  run (["PING 1"] ++ "QUIT" :: ["PING 2"]) demo_registered
  = (Raise IrcDisconnectError, c1) ∧
  written c1 = [Pong "gw" "1"].
Proof.
  intros run c1.
  assert (run ["PING 1"] demo_registered = (Ok tt, c1)) as Hbefore
    by (vm_compute; reflexivity).
  split; [exact Hbefore|]. split; [reflexivity|].
  destruct (reader_stops_at_failure (demo_remote []) demo_readable demo_magic
              demo_text demo_diff demo_str 0 ["PING 1"] ["PING 2"] "QUIT" demo_registered c1
              Hbefore) as (_ & Hquit).
  split; [exact (Hquit eq_refl)|reflexivity].
Defined.
